(** * wagtail_pdf_view.mixins: a shallow embedding

    The module [wagtail_pdf_view/mixins.py] declares three mixins for wagtail
    pages: [MultipleViewPageMixin] (declarative routes, preview dispatch, url
    attributes), [PdfModelMixin] (template and file name of a model) and
    [PdfViewPageMixin] (a page served as a pdf document).

    Python objects are modelled by their attribute dictionaries
    ([gmap string _]), exceptions by an error monad, and the mutable request
    object by explicit state passing.  What the module only imports from
    Django, wagtail and [wagtail_pdf_view.utils] ([gettext], [slugify],
    [patch_cache_control], [add_never_cache_headers], [route_function],
    [reverse_subpage], the inherited [serve_preview], the view providers) is
    kept abstract in the classes [Framework] and [Host]. *)

From Stdlib Require Import Ascii String.
From stdpp Require Import gmap strings list fin_maps.

Open Scope string_scope.
Open Scope list_scope.

(** ** Python values, exceptions and strings *)

Module Py.

(** The exceptions that the module raises itself or triggers in the
    interpreter, and [Foreign] for whatever a callee raises. *)
Inductive exn : Type :=
| AttributeError (msg : string)
| TypeError (msg : string)
| Foreign (name msg : string).

Inductive result (A : Type) : Type :=
| Ok (a : A)
| Raise (e : exn).
Arguments Ok {A} a.
Arguments Raise {A} e.

#[global] Instance result_ret : MRet result := λ A a, Ok a.

#[global] Instance result_bind : MBind result := λ A B f m,
  match m with
  | Ok a => f a
  | Raise e => Raise e
  end.

#[global] Instance result_fmap : FMap result := λ A B f m,
  match m with
  | Ok a => Ok (f a)
  | Raise e => Raise e
  end.

(** The attribute values that the module looks at. *)
Inductive pyval : Type :=
| PNone
| PBool (b : bool)
| PStr (s : string).

(** A computation that reads and mutates the request object it is given and
    returns or raises. *)
Definition action (A : Type) : Type :=
  gmap string pyval → result A * gmap string pyval.

#[global] Instance action_ret : MRet action := λ A a request, (Ok a, request).

#[global] Instance action_bind : MBind action := λ A B f m request,
  match m request with
  | (Ok a, request') => f a request'
  | (Raise e, request') => (Raise e, request')
  end.

(** [request.name = v] *)
Definition request_setattr (name : string) (v : pyval) : action unit :=
  λ request, (Ok tt, <[name := v]> request).

(** A computation that does not touch the request. *)
Definition lift {A : Type} (r : result A) : action A := λ request, (r, request).

(** Truth value of a [str], and of a [str] or [None]. *)
Definition truthy_str (s : string) : bool :=
  match s with
  | EmptyString => false
  | String _ _ => true
  end.

Definition truthy (v : option string) : bool :=
  match v with
  | Some s => truthy_str s
  | None => false
  end.

(** [s.startswith(p)] *)
Fixpoint startswith (s p : string) {struct p} : bool :=
  match p, s with
  | EmptyString, _ => true
  | String a p', String b s' => if Ascii.eqb a b then startswith s' p' else false
  | String _ _, EmptyString => false
  end.

(** [s.endswith(p)]: some suffix of [s] is [p]. *)
Fixpoint endswith (s p : string) : bool :=
  String.eqb s p ||
  match s with
  | EmptyString => false
  | String _ s' => endswith s' p
  end.

(** [s.replace(old, new)] for a non-empty [old]: the occurrences of [old]
    are found from left to right and do not overlap.  [skip] counts the
    characters of the current occurrence that are still to be dropped. *)
Fixpoint replace_from (skip : nat) (old new s : string) : string :=
  match s with
  | EmptyString => EmptyString
  | String c s' =>
      match skip with
      | S n => replace_from n old new s'
      | O =>
          if startswith s old
          then new +:+ replace_from (String.length old - 1) old new s'
          else String c (replace_from O old new s')
      end
  end.

Definition replace (s old new : string) : string := replace_from 0 old new s.

(** [sub in s] *)
Fixpoint occurs (sub s : string) : bool :=
  startswith s sub ||
  match s with
  | EmptyString => false
  | String _ s' => occurs sub s'
  end.

(** No occurrence of [old] in [stem +:+ rest] starts inside [stem]. *)
Fixpoint free_of (old stem rest : string) : bool :=
  match stem with
  | EmptyString => true
  | String _ stem' => negb (startswith (stem +:+ rest) old) && free_of old stem' rest
  end.

(** [a + b] where [a] is a [str] or [None] and [b] a [str]. *)
Definition str_add (a : option string) (b : string) : result string :=
  match a with
  | Some a => Ok (a +:+ b)
  | None => Raise (TypeError "unsupported operand type(s) for +: 'NoneType' and 'str'")
  end.

End Py.

Import Py.

(** ** What the module imports *)

(** Callables, responses, view providers and the pure helpers of Django and
    of [wagtail_pdf_view.utils]. *)
Class Framework : Type := {
  (** functions and methods *)
  fn : Type;
  (** [django.http.HttpResponse] *)
  response : Type;
  (** view classes such as [WagtailWeasyView] *)
  provider : Type;
  (** [wagtail_pdf_view.utils.route_function(fn, pattern, *args)] *)
  route_function : fn → string → list string → fn;
  (** [django.utils.translation.gettext] *)
  gettext : string → string;
  (** [django.utils.text.slugify] *)
  slugify : string → string;
  (** [django.utils.cache.patch_cache_control(response, **kwargs)] *)
  patch_cache_control : response → list (string * pyval) → response;
  (** [django.utils.cache.add_never_cache_headers(response)] *)
  add_never_cache_headers : response → response
}.

(** ** MultipleViewPageMixin *)

Module MultipleViewPageMixin.

(** An entry [(key, value, *args)] of [ROUTE_CONFIG]. *)
Record route_entry : Type := RouteEntry {
  key : string;
  value : option string;
  args : list string
}.

(** [if value:] *)
Definition enabled (e : route_entry) : bool := truthy (value e).

(** The pattern of the entry is not [None]. *)
Definition non_null (e : route_entry) : bool :=
  match value e with
  | Some _ => true
  | None => false
  end.

(** The entry as the specification reads it: its pattern is a string
    with at least one character, that is, neither [None] nor empty. *)
Definition has_pattern (e : route_entry) : bool :=
  match value e with
  | Some (String _ _) => true
  | Some EmptyString => false
  | None => false
  end.

(** The name of the route as the specification reads it: the third
    component of the entry, and the key when the entry has none. *)
Definition name_or_key (e : route_entry) : string :=
  match args e with
  | name :: _ => name
  | [] => key e
  end.

(** [args = [key]] when the entry has no third component. *)
Definition route_args (e : route_entry) : list string :=
  match args e with
  | [] => [key e]
  | _ :: _ => args e
  end.

(** A class: its own namespace of callables, the namespaces of the rest of
    its method resolution order, and the two class attributes that the mixin
    reads and writes. *)
Record pyclass `{Framework} : Type := PyClass {
  cls_name : string;
  (** [issubclass(cls, Page)] *)
  is_page : bool;
  own : gmap string fn;
  mro_tail : list (gmap string fn);
  ROUTE_CONFIG : list route_entry;
  DEFAULT_PREVIEW_MODES : list (string * string)
}.

Fixpoint mro_lookup `{Framework} (name : string) (spaces : list (gmap string fn)) : option fn :=
  match spaces with
  | [] => None
  | b :: spaces' =>
      match b !! name with
      | Some f => Some f
      | None => mro_lookup name spaces'
      end
  end.

(** [getattr(cls, name)] *)
Definition class_getattr `{Framework} (c : pyclass) (name : string) : result fn :=
  match mro_lookup name (own c :: mro_tail c) with
  | Some f => Ok f
  | None =>
      Raise (AttributeError
               ("type object '" +:+ cls_name c +:+ "' has no attribute '" +:+ name +:+ "'"))
  end.

(** [setattr(cls, name, f)] *)
Definition class_setattr `{Framework} (c : pyclass) (name : string) (f : fn) : pyclass :=
  PyClass _ (cls_name c) (is_page c) (<[name := f]> (own c)) (mro_tail c)
          (ROUTE_CONFIG c) (DEFAULT_PREVIEW_MODES c).

(** [cls.DEFAULT_PREVIEW_MODES = l] *)
Definition set_preview_modes `{Framework} (c : pyclass) (l : list (string * string)) : pyclass :=
  PyClass _ (cls_name c) (is_page c) (own c) (mro_tail c) (ROUTE_CONFIG c) l.

(** [get_preview_name(cls, key)] *)
Definition get_preview_name `{Framework} (k : string) : string :=
  gettext (k +:+ " preview").

(** ["serve_{}".format(key)] *)
Definition serve_name (k : string) : string := "serve_" +:+ k.

(** The preview mode that an enabled entry contributes. *)
Definition preview_mode_of `{Framework} (e : route_entry) : string * string :=
  (key e, get_preview_name (key e)).

(** [getattr(cls, name)] finds something. *)
Definition reachable `{Framework} (c : pyclass) (name : string) : Prop :=
  is_Some (mro_lookup name (own c :: mro_tail c)).

(** The entries of a configuration that bind [serve_<k>], in their order. *)
Definition binders (k : string) (cfg : list route_entry) : list route_entry :=
  List.filter (λ e, enabled e && bool_decide (key e = k)) cfg.

(** The pattern of an enabled entry. *)
Definition pattern_of (e : route_entry) : string := default "" (value e).

(** [f] wrapped by [route_function] once per entry, the first entry
    innermost. *)
Definition rebind `{Framework} (f : fn) (es : list route_entry) : fn :=
  fold_left (λ g e, route_function g (pattern_of e) (route_args e)) es f.

(** The body of the loop of [__init_subclass__]. *)
Definition route_step `{Framework} (c : pyclass) (e : route_entry) : result pyclass :=
  match value e with
  | Some pattern =>
      if truthy_str pattern then
        let c1 :=
          set_preview_modes c
            (DEFAULT_PREVIEW_MODES c ++ [(key e, get_preview_name (key e))]) in
        let serve_method := serve_name (key e) in
        f ← class_getattr c1 serve_method;
        mret (class_setattr c1 serve_method (route_function f pattern (route_args e)))
      else mret c
  | None => mret c
  end.

Fixpoint route_loop `{Framework} (cfg : list route_entry) (c : pyclass) : result pyclass :=
  match cfg with
  | [] => mret c
  | e :: cfg' => c1 ← route_step c e; route_loop cfg' c1
  end.

Definition __init_subclass__ `{Framework} (c : pyclass) : result pyclass :=
  if is_page c
  then route_loop (ROUTE_CONFIG c) (set_preview_modes c [])
  else mret c.

(** An instance of a page class.  [attrs] holds the data attributes that
    [hasattr] and [getattr] find on the instance, [inst_callables] the
    callables stored on the instance itself; the other fields are the
    attributes that the mixins read by name. *)
Record page `{Framework} : Type := Page {
  page_class : pyclass;
  inst_callables : gmap string fn;
  attrs : gmap string pyval;
  (** the property [Page.url]: a [str] or [None] *)
  url : option string;
  title : string;
  pdf_slugify_document_name : bool;
  PDF_VIEW_PROVIDER : option provider
}.

(** The methods of the host framework that act on a page. *)
Class Host `{Framework} : Type := {
  (** calling a serve method bound to the page with the request *)
  call : fn → page → action response;
  (** [RoutablePageMixin.reverse_subpage(name)], resolved on the class *)
  reverse_subpage : pyclass → string → result string;
  (** [super().serve_preview(request, mode_name)] *)
  super_serve_preview : page → string → action response;
  (** [provider.as_view()(request, object=..., mode=..., **kwargs)] *)
  as_view : provider → page → string → gmap string pyval → action response
}.

(** [hasattr(self, name)] *)
Definition hasattr `{Framework} (self : page) (name : string) : bool :=
  bool_decide (is_Some (attrs self !! name)).

(** [setattr(self, name, v)] *)
Definition setattr `{Framework} (self : page) (name : string) (v : pyval) : page :=
  Page _ (page_class self) (inst_callables self) (<[name := v]> (attrs self))
       (url self) (title self) (pdf_slugify_document_name self) (PDF_VIEW_PROVIDER self).

(** [if url and not url.endswith('/'): url += '/'] for a [str]. *)
Definition ensure_slash (s : string) : string :=
  if truthy_str s && negb (endswith s "/") then s +:+ "/" else s.

(** [url = self.url; if url and not url.endswith('/'): url += '/'] *)
Definition with_slash (u : option string) : option string :=
  match u with
  | Some s => Some (ensure_slash s)
  | None => None
  end.

(** ["url_" + key] *)
Definition url_name (k : string) : string := "url_" +:+ k.

(** The first entry of the configuration that sets the attribute [n] on an
    instance that does not have it. *)
Definition first_entry_for (n : string) (cfg : list route_entry) : option route_entry :=
  List.find (λ e, enabled e && bool_decide (url_name (key e) = n)) cfg.

(** The first entry of the configuration for which [__init__] has an
    attribute to set on the instance. *)
Definition first_to_assign `{Framework} (self : page) (cfg : list route_entry)
    : option route_entry :=
  List.find (λ e, enabled e && negb (hasattr self (url_name (key e)))) cfg.

(** [name = route_args[0]] *)
Definition route_name (e : route_entry) : string :=
  match route_args e with
  | n :: _ => n
  | [] => key e
  end.

(** The body of the loop of [__init__]. *)
Definition url_step `{Host} (self : page) (e : route_entry) : result page :=
  if enabled e && negb (hasattr self (url_name (key e))) then
    let name := route_name e in
    let url := with_slash (url self) in
    sub ← reverse_subpage (page_class self) name;
    v ← str_add url sub;
    mret (setattr self (url_name (key e)) (PStr v))
  else mret self.

Fixpoint url_loop `{Host} (cfg : list route_entry) (self : page) : result page :=
  match cfg with
  | [] => mret self
  | e :: cfg' => self1 ← url_step self e; url_loop cfg' self1
  end.

(** [__init__], after the inherited constructor has built [self]. *)
Definition __init__ `{Host} (self : page) : result page :=
  url_loop (ROUTE_CONFIG (page_class self)) self.

(** The property [preview_modes]. *)
Definition preview_modes `{Framework} (self : page) : list (string * string) :=
  DEFAULT_PREVIEW_MODES (page_class self).

(** [getattr(self, name)] for a callable. *)
Definition getattr_callable `{Framework} (self : page) (name : string) : result fn :=
  let c := page_class self in
  match mro_lookup name (inst_callables self :: own c :: mro_tail c) with
  | Some f => Ok f
  | None =>
      Raise (AttributeError
               ("'" +:+ cls_name c +:+ "' object has no attribute '" +:+ name +:+ "'"))
  end.

(** [try: getattr(self, "serve_preview_" + m) except AttributeError:
    getattr(self, "serve_" + m)] *)
Definition preview_serve_method `{Framework} (self : page) (mode_name : string) : result fn :=
  match getattr_callable self ("serve_preview_" +:+ mode_name) with
  | Ok serve => Ok serve
  | Raise (AttributeError _) => getattr_callable self ("serve_" +:+ mode_name)
  | Raise e => Raise e
  end.

Definition serve_preview `{Host} (self : page) (mode_name : string) : action response :=
  let mode_names := (preview_modes self).*1 in
  request_setattr "is_preview" (PBool true);;
  if bool_decide (mode_name ∈ mode_names) then
    serve ← lift (preview_serve_method self mode_name);
    response ← call serve self;
    mret (patch_cache_control response [("private", PBool true)])
  else super_serve_preview self mode_name.

End MultipleViewPageMixin.

(** ** PdfModelMixin *)

Module PdfModelMixin.

(** A model instance: the attributes [getattr] finds on it, its
    [_meta.model_name] and the two class constants naming the template
    attributes. *)
Record model : Type := Model {
  attrs : gmap string pyval;
  model_name : string;
  TEMPLATE_ATTRIBUTE : string;
  ADMIN_TEMPLATE_ATTRIBUTE : string
}.

(** A view instance handed over as [view_provider]. *)
Record view : Type := View {
  (** [isinstance(view_provider, AdminViewMixin)] *)
  is_admin_view : bool
}.

(** [isinstance(view_provider, AdminViewMixin)], false for [None]. *)
Definition isinstance_AdminViewMixin (view_provider : option view) : bool :=
  match view_provider with
  | Some v => is_admin_view v
  | None => false
  end.

Definition template_not_found (self : model) (template_attr : string) : exn :=
  AttributeError
    ("Template attribute not found for model " +:+ model_name self +:+ ". "
     +:+ "Try to add " +:+ template_attr +:+ "='path/to/your/template_file' to "
     +:+ model_name self).

(** The attribute that [get_template] reads for a view provider. *)
Definition template_attribute_for (self : model) (view_provider : option view) : string :=
  if isinstance_AdminViewMixin view_provider
  then ADMIN_TEMPLATE_ATTRIBUTE self
  else TEMPLATE_ATTRIBUTE self.

Definition get_template (self : model) (request : gmap string pyval)
    (extension : option string) (view_provider : option view) : result pyval :=
  let template_attr := template_attribute_for self view_provider in
  match attrs self !! template_attr with
  | Some v => Ok v
  | None => Raise (template_not_found self template_attr)
  end.

Definition get_pdf_filename (self : model) (request : gmap string pyval) : string :=
  model_name self +:+ ".pdf".

(** A model of a class that keeps the two constants of the mixin. *)
Definition plain_model (attrs : gmap string pyval) (model_name : string) : model :=
  Model attrs model_name "template_name" "admin_template_name".

End PdfModelMixin.

(** ** PdfViewPageMixin *)

Module PdfViewPageMixin.

Import MultipleViewPageMixin.

(** The outcome of [from .views import View, AdminView]: the two view
    classes, or [None] for an [ImportError]. *)
Definition DEFAULT_PDF_VIEW_PROVIDER {P : Type} (weasy tex : option (P * P)) : option P :=
  match weasy with
  | Some (v, _) => Some v
  | None =>
      match tex with
      | Some (v, _) => Some v
      | None => None
      end
  end.

Definition DEFAULT_PDF_ADMIN_VIEW_PROVIDER {P : Type} (weasy tex : option (P * P)) : option P :=
  match weasy with
  | Some (_, a) => Some a
  | None =>
      match tex with
      | Some (_, a) => Some a
      | None => None
      end
  end.

(** What the module prints when it is imported: the warning of the inner
    [except ImportError]. *)
Definition import_output {P : Type} (weasy tex : option (P * P)) : list string :=
  match weasy, tex with
  | None, None =>
      ["Warning: DEFAULT_PDF_VIEW_PROVIDER unspecified."
       +:+ "Make sure you have either django-weasyprint or django-tex installed, or provide a default."]
  | _, _ => []
  end.

(** The class attribute [PDF_VIEW_PROVIDER]:
    [getattr(settings, name, DEFAULT_PDF_VIEW_PROVIDER)], where [setting] is
    the value of the setting when the settings module has one. *)
Definition PDF_VIEW_PROVIDER_of_settings {P : Type}
    (setting : option (option P)) (weasy tex : option (P * P)) : option P :=
  match setting with
  | Some v => v
  | None => DEFAULT_PDF_VIEW_PROVIDER weasy tex
  end.

Definition ROUTE_CONFIG_default : list route_entry :=
  [RouteEntry "pdf" (Some "^$") []; RouteEntry "html" None []].

(** [self.PDF_VIEW_PROVIDER.as_view()] *)
Definition get_pdf_view `{Host} (self : page)
    : result (page → string → gmap string pyval → action response) :=
  match PDF_VIEW_PROVIDER self with
  | Some p => Ok (as_view p)
  | None => Raise (AttributeError "'NoneType' object has no attribute 'as_view'")
  end.

Definition get_pdf_filename `{Framework} (self : page) (request : gmap string pyval) : string :=
  let title := if pdf_slugify_document_name self then slugify (title self) else title self in
  title +:+ ".pdf".

(** [template_name.replace(old, new)] on whatever the attribute holds. *)
Definition py_replace (v : pyval) (old new : string) : result pyval :=
  match v with
  | PStr s => Ok (PStr (replace s old new))
  | PNone => Raise (AttributeError "'NoneType' object has no attribute 'replace'")
  | PBool _ => Raise (AttributeError "'bool' object has no attribute 'replace'")
  end.

(** [if extension: template_name = template_name.replace(".html", "." + extension)] *)
Definition apply_extension (template_name : pyval) (extension : option string) : result pyval :=
  match extension with
  | Some ext =>
      if truthy_str ext
      then py_replace template_name ".html" ("." +:+ ext)
      else mret template_name
  | None => mret template_name
  end.

(** [super_get_template] is the next [get_template] of the method resolution
    order, bound to the page.  A [view_provider] keyword ends up in the
    keyword dictionary that the body never reads. *)
Definition get_template (super_get_template : gmap string pyval → result pyval)
    (request : gmap string pyval) (extension : option string)
    (view_provider : option PdfModelMixin.view) : result pyval :=
  template_name ← super_get_template request;
  apply_extension template_name extension.

(** [get_template] on a page whose next [get_template] is the one of
    [PdfModelMixin]: the call [super().get_template(request)] leaves
    [extension] and [view_provider] at their default [None]. *)
Definition get_template_on_model (self : PdfModelMixin.model)
    (request : gmap string pyval) (extension : option string)
    (view_provider : option PdfModelMixin.view) : result pyval :=
  get_template (λ request, PdfModelMixin.get_template self request None None)
               request extension view_provider.

(** The substitution as the specification words it: a trailing [old] is
    replaced by [new]. *)
Definition replace_trailing (s old new : string) : string :=
  if endswith s old
  then String.substring 0 (String.length s - String.length old) s +:+ new
  else s.

(** [view(request, object=self, mode=..., **kwargs)]: a keyword given twice
    is a [TypeError]. *)
Definition call_view `{Host} (view : page → string → gmap string pyval → action response)
    (self : page) (mode : string) (kwargs : gmap string pyval) : action response :=
  if bool_decide ("object" ∈ dom kwargs ∨ "mode" ∈ dom kwargs)
  then lift (Raise (TypeError "got multiple values for keyword argument"))
  else view self mode kwargs.

Definition serve_pdf `{Host} (self : page) (kwargs : gmap string pyval) : action response :=
  view ← lift (get_pdf_view self);
  response ← call_view view self "pdf" kwargs;
  mret (add_never_cache_headers response).

(** A value of the dictionary [extra_request_attrs]: a plain value or a
    request object. *)
Inductive extra_attr : Type :=
| ExtraVal (v : pyval)
| ExtraRequest (r : gmap string pyval).

(** [original_request] as a dictionary value. *)
Definition extra_of_request (original_request : option (gmap string pyval)) : extra_attr :=
  match original_request with
  | Some r => ExtraRequest r
  | None => ExtraVal PNone
  end.

(** [not extra_request_attrs]: the argument is [None] or an empty dictionary. *)
Definition falsy_dict (extra_request_attrs : option (gmap string extra_attr)) : bool :=
  match extra_request_attrs with
  | Some d => Nat.eqb (size d) 0
  | None => true
  end.

(** [make_preview_request].  [super_make_preview_request] is the inherited
    method; it gets the dictionary and may change it.  The second component
    of the result is the caller's [extra_request_attrs] after the call: the
    dictionary that was passed in is the one written to unless it was falsy,
    in which case a new dictionary is used and the caller's is left alone. *)
Definition make_preview_request {R : Type}
    (super_make_preview_request :
       option (gmap string pyval) → option string → gmap string extra_attr
       → R * gmap string extra_attr)
    (original_request : option (gmap string pyval)) (preview_mode : option string)
    (extra_request_attrs : option (gmap string extra_attr))
    : R * option (gmap string extra_attr) :=
  let fresh := falsy_dict extra_request_attrs in
  let d := if fresh then ∅ else default ∅ extra_request_attrs in
  let d := <["original_request" := extra_of_request original_request]> d in
  let '(r, d') := super_make_preview_request original_request preview_mode d in
  (r, if fresh then extra_request_attrs else Some d').

End PdfViewPageMixin.

(** ** A concrete framework, for the examples *)

Module Demo.

Import MultipleViewPageMixin.

(** An ASCII model of [django.utils.text.slugify] (Django 3.0): characters
    other than word characters, white space and hyphens are removed, the
    rest is stripped and lowered, and runs of white space and hyphens become
    one hyphen. *)
Definition is_word (c : ascii) : bool :=
  let n := nat_of_ascii c in
  (Nat.leb 48 n && Nat.leb n 57) || (Nat.leb 65 n && Nat.leb n 90)
  || (Nat.leb 97 n && Nat.leb n 122) || Nat.eqb n 95.

Definition is_space (c : ascii) : bool :=
  let n := nat_of_ascii c in
  (Nat.leb 9 n && Nat.leb n 13) || (Nat.leb 28 n && Nat.leb n 32).

Definition is_hyphen (c : ascii) : bool := Nat.eqb (nat_of_ascii c) 45.

Definition lower (c : ascii) : ascii :=
  let n := nat_of_ascii c in
  if Nat.leb 65 n && Nat.leb n 90 then ascii_of_nat (n + 32) else c.

Fixpoint lstrip (l : list ascii) : list ascii :=
  match l with
  | c :: l' => if is_space c then lstrip l' else l
  | [] => []
  end.

Fixpoint collapse (in_run : bool) (l : list ascii) : list ascii :=
  match l with
  | [] => []
  | c :: l' =>
      if is_space c || is_hyphen c
      then (if in_run then collapse true l' else ascii_of_nat 45 :: collapse true l')
      else c :: collapse false l'
  end.

Definition slugify_ascii (s : string) : string :=
  let kept := List.filter (λ c, is_word c || is_space c || is_hyphen c)
                          (list_ascii_of_string s) in
  let stripped := rev (lstrip (rev (lstrip kept))) in
  string_of_list_ascii (collapse false (List.map lower stripped)).

(** Callables are named by strings, a response is the list of what was done
    to produce it. *)
#[export] Instance framework : Framework := {|
  fn := string;
  response := list string;
  provider := string;
  route_function f pattern names := "route(" +:+ f +:+ ", " +:+ pattern +:+ ")";
  gettext s := s;
  slugify := slugify_ascii;
  patch_cache_control r kwargs := (r ++ ["Cache-Control: " +:+ String.concat ", " (kwargs.*1)])%list;
  add_never_cache_headers r := (r ++ ["never-cache"])%list
|}.

(** The host's default preview shows whether it saw the preview mark. *)
#[export] Instance host : Host := {|
  call f self := λ request, (Ok [f], <["served_by" := PStr f]> request);
  reverse_subpage c name := Ok (name +:+ "/");
  super_serve_preview self mode_name := λ request,
    (Ok [match request !! "is_preview" with Some (PBool true) => "preview" | _ => "live" end],
     request);
  as_view p self mode kwargs := λ request, (Ok [p; title self; mode], request)
|}.

(** [class PdfPage(PdfViewPageMixin, Page)] with both views enabled, before
    its routes are compiled. *)
Definition PdfPage : pyclass :=
  PyClass _ "PdfPage" true ∅
          [{["serve_html" := "PdfViewPageMixin.serve_html";
             "serve_pdf" := "PdfViewPageMixin.serve_pdf"]}]
          [RouteEntry "html" (Some "^$") []; RouteEntry "pdf" (Some "^pdf/$") []]
          [].

(** A class whose only route has the empty pattern, with and without the
    method to serve it. *)
Definition EmptyPatternPage (methods : gmap string string) : pyclass :=
  PyClass _ "EmptyPatternPage" true methods [] [RouteEntry "html" (Some "") []] [].

(** A class with the routes of [PdfViewPageMixin] and no serve method. *)
Definition NoServePage : pyclass :=
  PyClass _ "NoServePage" true ∅ [] [RouteEntry "pdf" (Some "^$") []; RouteEntry "html" None []] [].

(** [PdfPage] once its routes are compiled. *)
Definition CompiledPdfPage : pyclass :=
  match __init_subclass__ PdfPage with
  | Ok c => c
  | Raise _ => PdfPage
  end.

(** [class CustomPdfPage(PdfPage)] of the docstring: the pdf view becomes
    the default route and the html view is switched off. *)
Definition CustomPdfPage : pyclass :=
  PyClass _ "CustomPdfPage" true ∅
          (own CompiledPdfPage :: mro_tail CompiledPdfPage)
          [RouteEntry "pdf" (Some "^$") []; RouteEntry "html" None []]
          (DEFAULT_PREVIEW_MODES CompiledPdfPage).

(** An instance with the given class, data attributes and url. *)
Definition instance (c : pyclass) (attrs : gmap string pyval) (url : option string) : page :=
  Page _ c ∅ attrs url "My Page" true (Some "WagtailWeasyView").

(** A page class whose pdf route has a name of its own and whose tex view
    is switched off. *)
Definition NamedRoutePage : pyclass :=
  PyClass _ "NamedRoutePage" true ∅ []
          [RouteEntry "html" (Some "^$") []; RouteEntry "pdf" (Some "^pdf/$") ["document"];
           RouteEntry "tex" None []]
          [("html", "html preview"); ("pdf", "pdf preview")].

(** A host on which no sub-path can be reversed. *)
Definition host_without_reverse : Host := {|
  call := call;
  reverse_subpage c name := Raise (Foreign "NoReverseMatch" name);
  super_serve_preview := super_serve_preview;
  as_view := as_view
|}.

End Demo.

(** * Properties *)

(** ** Strings *)

Section strings.

Lemma endswith_refl (s : string) : endswith s s = true.
Proof. destruct s; simpl; rewrite ?Ascii.eqb_refl, ?String.eqb_refl; reflexivity. Qed.

Lemma endswith_app (s p : string) : endswith (s +:+ p) p = true.
Proof.
  induction s as [|c s IH]; simpl.
  - apply endswith_refl.
  - rewrite IH. apply orb_true_r.
Qed.

(** After the adjustment of [__init__] a non-empty url ends in a slash, and
    the empty url stays empty. *)
Lemma ensure_slash_endswith (u : string) :
  u ≠ "" → endswith (MultipleViewPageMixin.ensure_slash u) "/" = true.
Proof.
  intros Hu. unfold MultipleViewPageMixin.ensure_slash.
  destruct u as [|c u]; [done|]. cbn [truthy_str andb].
  destruct (endswith (String c u) "/") eqn:E; cbn [negb].
  - exact E.
  - apply (endswith_app (String c u) "/").
Qed.

Lemma ensure_slash_empty : MultipleViewPageMixin.ensure_slash "" = "".
Proof. reflexivity. Qed.

End strings.

(** ** The route compiler *)

Section route_compiler.

Import MultipleViewPageMixin.

Context `{Framework}.

Implicit Types (c : pyclass) (e : route_entry) (cfg : list route_entry).

Abbreviation serve_method e := (serve_name (key e)).

Lemma serve_name_inj (k k' : string) : serve_name k = serve_name k' → k = k'.
Proof. unfold serve_name. intros [= E]. exact E. Qed.

Lemma enabled_value e :
  enabled e = true → ∃ pattern, value e = Some pattern ∧ truthy_str pattern = true.
Proof. unfold enabled, truthy. destruct (value e); [eauto | done]. Qed.

Lemma route_step_disabled c e : enabled e = false → route_step c e = Ok c.
Proof.
  unfold enabled, truthy, route_step. destruct (value e) as [p|]; [|done].
  by intros ->.
Qed.

Lemma route_step_bound c e pattern f :
  value e = Some pattern → truthy_str pattern = true →
  mro_lookup (serve_method e) (own c :: mro_tail c) = Some f →
  route_step c e =
    Ok (class_setattr
          (set_preview_modes c (DEFAULT_PREVIEW_MODES c ++ [preview_mode_of e]))
          (serve_method e) (route_function f pattern (route_args e))).
Proof.
  intros Hv Ht Hf. unfold route_step, class_getattr. rewrite Hv, Ht.
  cbn [set_preview_modes own mro_tail]. by rewrite Hf.
Qed.

Lemma route_step_missing c e :
  enabled e = true → mro_lookup (serve_method e) (own c :: mro_tail c) = None →
  ∃ msg, route_step c e = Raise (AttributeError msg).
Proof.
  intros (pattern & Hv & Ht)%enabled_value Hf. unfold route_step, class_getattr.
  rewrite Hv, Ht. cbn [set_preview_modes own mro_tail]. rewrite Hf. eauto.
Qed.

(** Binding a name hides nothing: a name that [getattr] found is still found. *)
Lemma reachable_setattr c name f n : reachable c n → reachable (class_setattr c name f) n.
Proof.
  unfold reachable. cbn. destruct (decide (name = n)) as [->|Hne].
  - by rewrite lookup_insert_eq.
  - by rewrite lookup_insert_ne.
Qed.

(** A step that returns binds a name only where [getattr] found one, so a
    missing name stays missing. *)
Lemma route_step_keeps_missing c c1 e n :
  route_step c e = Ok c1 →
  mro_lookup n (own c :: mro_tail c) = None →
  mro_lookup n (own c1 :: mro_tail c1) = None.
Proof.
  intros Hstep Hn. destruct (enabled e) eqn:Hen.
  - destruct (enabled_value e Hen) as (pattern & Hv & Ht).
    destruct (mro_lookup (serve_method e) (own c :: mro_tail c)) as [f|] eqn:Hf.
    + rewrite (route_step_bound c e pattern f Hv Ht Hf) in Hstep.
      injection Hstep as <-. cbn. rewrite lookup_insert_ne; [exact Hn|].
      intros <-. cbn in Hf, Hn. congruence.
    + destruct (route_step_missing c e Hen Hf) as [msg Hmsg]. congruence.
  - rewrite route_step_disabled in Hstep by done. by injection Hstep as <-.
Qed.

(** What a run of the loop that finds all its methods leaves behind. *)
Lemma route_loop_ok cfg : ∀ c,
  (∀ e, e ∈ cfg → enabled e = true → reachable c (serve_method e)) →
  ∃ c', route_loop cfg c = Ok c'
        ∧ DEFAULT_PREVIEW_MODES c' =
            DEFAULT_PREVIEW_MODES c ++ (preview_mode_of <$> List.filter enabled cfg)
        ∧ (∀ n, (∀ e, e ∈ cfg → enabled e = true → serve_method e ≠ n) →
                own c' !! n = own c !! n)
        ∧ mro_tail c' = mro_tail c.
Proof.
  induction cfg as [|e cfg IH]; intros c Hall.
  - exists c. cbn. rewrite app_nil_r. done.
  - cbn [route_loop]. destruct (enabled e) eqn:Hen.
    + destruct (enabled_value e Hen) as (pattern & Hv & Ht).
      destruct (Hall e) as [f Hf]; [left | done |].
      rewrite (route_step_bound c e pattern f Hv Ht Hf). cbn [mbind result_bind].
      set (c1 := class_setattr _ _ _).
      destruct (IH c1) as (c' & Hrun & Hmodes & Hown & Htail).
      { intros e' Hin' Hen'. apply reachable_setattr. apply Hall; [by right | done]. }
      exists c'. split; [exact Hrun|]. split; [|split].
      * rewrite Hmodes. cbn. rewrite Hen. cbn. by rewrite <- app_assoc.
      * intros n Hn. rewrite Hown.
        -- cbn. apply lookup_insert_ne. apply Hn; [left | done].
        -- intros e' Hin'. apply Hn. by right.
      * by rewrite Htail.
    + rewrite route_step_disabled by done. cbn [mbind result_bind].
      destruct (IH c) as (c' & Hrun & Hmodes & Hown & Htail).
      { intros e' Hin'. apply Hall. by right. }
      exists c'. split; [exact Hrun|]. split; [|split]; [| |done].
      * rewrite Hmodes. cbn. by rewrite Hen.
      * intros n Hn. apply Hown. intros e' Hin'. apply Hn. by right.
Qed.

(** A run of the loop over an enabled entry without method raises. *)
Lemma route_loop_missing cfg : ∀ c e,
  e ∈ cfg → enabled e = true →
  mro_lookup (serve_method e) (own c :: mro_tail c) = None →
  ∃ msg, route_loop cfg c = Raise (AttributeError msg).
Proof.
  induction cfg as [|e0 cfg IH]; intros c e Hin Hen Hmiss.
  - by apply elem_of_nil in Hin.
  - cbn [route_loop]. apply elem_of_cons in Hin as [<-|Hin].
    + destruct (route_step_missing c e Hen Hmiss) as [msg ->]. cbn. eauto.
    + destruct (route_step c e0) as [c1|err] eqn:Hstep.
      * cbn [mbind result_bind]. apply (IH c1 e Hin Hen).
        by apply (route_step_keeps_missing c c1 e0).
      * destruct (enabled e0) eqn:Hen0.
        -- destruct (mro_lookup (serve_method e0) (own c :: mro_tail c)) as [f|] eqn:Hf.
           ++ destruct (enabled_value e0 Hen0) as (pattern & Hv & Ht).
              rewrite (route_step_bound c e0 pattern f Hv Ht Hf) in Hstep. done.
           ++ destruct (route_step_missing c e0 Hen0 Hf) as [msg Hmsg].
              rewrite Hstep in Hmsg. injection Hmsg as ->. cbn. eauto.
        -- rewrite route_step_disabled in Hstep by done. done.
Qed.

End route_compiler.

Section route_compiler_claims.

Import MultipleViewPageMixin.

Context `{Framework}.

Lemma has_pattern_enabled (e : route_entry) : has_pattern e = enabled e.
Proof. unfold has_pattern, enabled, truthy. by destruct (value e) as [[|a p]|]. Qed.

(** C1 (amended).  When a page class is defined and every entry of its
    [ROUTE_CONFIG] with a non-empty pattern has its method [serve_<key>],
    route compilation returns, and [DEFAULT_PREVIEW_MODES] then holds exactly
    one pair [(key, gettext (key + " preview"))] per entry whose pattern is
    neither [None] nor the empty string, in the order of the entries.  A key
    that no such entry carries is no preview mode, and its entries bind
    nothing: the compilation sets nothing under [serve_<key>] on the
    class. *)
Theorem init_subclass_preview_modes (c : pyclass) :
  is_page c = true →
  (∀ e, e ∈ ROUTE_CONFIG c → has_pattern e = true →
        is_Some (mro_lookup ("serve_" +:+ key e) (own c :: mro_tail c))) →
  ∃ c', __init_subclass__ c = Ok c'
        ∧ DEFAULT_PREVIEW_MODES c' =
            ((λ e, (key e, gettext (key e +:+ " preview")))
               <$> List.filter has_pattern (ROUTE_CONFIG c))
        ∧ ∀ k, (∀ e, e ∈ ROUTE_CONFIG c → key e = k → has_pattern e = false) →
               (k ∉ (DEFAULT_PREVIEW_MODES c').*1)
               ∧ own c' !! ("serve_" +:+ k) = own c !! ("serve_" +:+ k).
Proof.
  intros Hpage Hall. unfold __init_subclass__. rewrite Hpage.
  rewrite (List.filter_ext has_pattern enabled has_pattern_enabled).
  destruct (route_loop_ok (ROUTE_CONFIG c) (set_preview_modes c []))
    as (c' & Hrun & Hmodes & Hown & Htail).
  { intros e Hin Hen. apply (Hall e Hin). by rewrite has_pattern_enabled. }
  exists c'. split; [exact Hrun|]. cbn in Hmodes, Hown, Htail.
  split; [exact Hmodes|]. intros k Hk. split.
  - rewrite Hmodes, <- list_fmap_compose. intros Hin.
    apply list_elem_of_fmap in Hin as (e & -> & Hin).
    apply list_elem_of_In, filter_In in Hin as [Hin Hen].
    apply list_elem_of_In in Hin. rewrite <- has_pattern_enabled in Hen.
    rewrite (Hk e Hin eq_refl) in Hen. done.
  - apply (Hown (serve_name k)). intros e Hin Hen Heq. apply serve_name_inj in Heq.
    rewrite <- has_pattern_enabled, (Hk e Hin Heq) in Hen. done.
Qed.

(** C2 (amended).  When a page class is defined whose [ROUTE_CONFIG] has an
    entry with key [k] and a pattern that is neither [None] nor the empty
    string, and [getattr] finds no [serve_<k>] on the class, route
    compilation raises an [AttributeError]. *)
Theorem init_subclass_missing_method (c : pyclass) (e : route_entry) :
  is_page c = true →
  e ∈ ROUTE_CONFIG c →
  enabled e = true →
  mro_lookup (serve_name (key e)) (own c :: mro_tail c) = None →
  ∃ msg, __init_subclass__ c = Raise (AttributeError msg).
Proof.
  intros Hpage Hin Hen Hmiss. unfold __init_subclass__. rewrite Hpage.
  by apply (route_loop_missing (ROUTE_CONFIG c) (set_preview_modes c []) e).
Qed.

(** A class that is no page is left as it is. *)
Lemma init_subclass_not_a_page (c : pyclass) :
  is_page c = false → __init_subclass__ c = Ok c.
Proof. intros Hpage. unfold __init_subclass__. by rewrite Hpage. Qed.

End route_compiler_claims.

Section route_compiler_examples.

Import MultipleViewPageMixin Demo.

Lemma init_subclass_preview_modes_witness :
  is_page CustomPdfPage = true
  ∧ ∃ c', __init_subclass__ CustomPdfPage = Ok c'
          ∧ DEFAULT_PREVIEW_MODES c' = [("pdf", "pdf preview")]
          ∧ ("html" ∉ (DEFAULT_PREVIEW_MODES c').*1)
          ∧ own c' !! "serve_html" = None.
Proof.
  split; [reflexivity|].
  destruct (init_subclass_preview_modes CustomPdfPage eq_refl) as (c' & Hrun & Hmodes & Hnull).
  { intros e Hin Hen.
    repeat (apply elem_of_cons in Hin as [->|Hin]); [| |by apply elem_of_nil in Hin].
    - by eexists.
    - discriminate Hen. }
  exists c'. split; [exact Hrun|]. split; [exact Hmodes|].
  destruct (Hnull "html") as [Hmode Hown]; [|by split].
  intros e Hin Hkey.
  repeat (apply elem_of_cons in Hin as [->|Hin]); [| |by apply elem_of_nil in Hin].
  - discriminate Hkey.
  - reflexivity.
Defined.

(** The routes of the docstring: both views enabled. *)
Example init_subclass_PdfPage :
  DEFAULT_PREVIEW_MODES Demo.CompiledPdfPage = [("html", "html preview"); ("pdf", "pdf preview")]
  ∧ own Demo.CompiledPdfPage !! "serve_pdf"
    = Some (route_function "PdfViewPageMixin.serve_pdf" "^pdf/$" ["pdf"]).
Proof. split; reflexivity. Qed.

(** The subclass of the docstring: [html] is no preview mode any more and
    nothing is bound under [serve_html] on the subclass, whose [getattr]
    still finds the method that the parent class bound. *)
Example init_subclass_CustomPdfPage :
  ∃ c', __init_subclass__ CustomPdfPage = Ok c'
        ∧ DEFAULT_PREVIEW_MODES c' = [("pdf", "pdf preview")]
        ∧ own c' !! "serve_html" = None
        ∧ own c' !! "serve_pdf" = Some "route(route(PdfViewPageMixin.serve_pdf, ^pdf/$), ^$)"
        ∧ mro_lookup "serve_html" (own c' :: mro_tail c')
          = Some "route(PdfViewPageMixin.serve_html, ^$)".
Proof. eexists. repeat split. Qed.

(** C1, as stated, fails in two places.  An entry whose pattern is the
    empty string, which is not [None], contributes no preview mode although
    the class has its method.  And on the subclass of the docstring, which
    sets the key [html] that its parent enabled to [None], [getattr] still
    finds under [serve_html] the method that the parent bound to its route. *)
Lemma init_subclass_empty_pattern_no_mode :
  (∃ c', __init_subclass__ (Demo.EmptyPatternPage {["serve_html" := "serve_html"]}) = Ok c'
         ∧ DEFAULT_PREVIEW_MODES c' = []
         ∧ ((λ e, (key e, key e +:+ " preview"))
              <$> List.filter non_null (ROUTE_CONFIG (Demo.EmptyPatternPage {["serve_html" := "serve_html"]})))
           = [("html", "html preview")]
         ∧ DEFAULT_PREVIEW_MODES c' ≠
             ((λ e, (key e, key e +:+ " preview"))
                <$> List.filter non_null (ROUTE_CONFIG (Demo.EmptyPatternPage {["serve_html" := "serve_html"]}))))
  ∧ (RouteEntry "html" None [] ∈ ROUTE_CONFIG CustomPdfPage
     ∧ own CompiledPdfPage !! "serve_html"
       = Some (route_function "PdfViewPageMixin.serve_html" "^$" ["html"])
     ∧ ∃ c', __init_subclass__ CustomPdfPage = Ok c'
             ∧ mro_lookup "serve_html" (own c' :: mro_tail c')
               = Some (route_function "PdfViewPageMixin.serve_html" "^$" ["html"])).
Proof.
  split.
  - eexists. split; [reflexivity|]. split; [reflexivity|]. split; [reflexivity|]. done.
  - split; [right; left|]. split; [reflexivity|]. eexists. split; reflexivity.
Qed.

Lemma init_subclass_missing_method_witness :
  is_page Demo.NoServePage = true
  ∧ RouteEntry "pdf" (Some "^$") [] ∈ ROUTE_CONFIG Demo.NoServePage
  ∧ ∃ msg, __init_subclass__ Demo.NoServePage = Raise (AttributeError msg).
Proof.
  split; [reflexivity|]. split; [left|].
  apply (init_subclass_missing_method Demo.NoServePage (RouteEntry "pdf" (Some "^$") []));
    [reflexivity | left | reflexivity | reflexivity].
Defined.

(** C2, as stated, fails for an entry whose pattern is the empty string:
    the pattern is not [None], the class has no [serve_html], and route
    compilation returns without an error. *)
Lemma init_subclass_empty_pattern_no_error :
  non_null (RouteEntry "html" (Some "") []) = true
  ∧ RouteEntry "html" (Some "") [] ∈ ROUTE_CONFIG (Demo.EmptyPatternPage ∅)
  ∧ mro_lookup "serve_html" (own (Demo.EmptyPatternPage ∅) :: mro_tail (Demo.EmptyPatternPage ∅)) = None
  ∧ __init_subclass__ (Demo.EmptyPatternPage ∅) = Ok (Demo.EmptyPatternPage ∅).
Proof. split; [reflexivity|]. split; [left|]. split; reflexivity. Qed.

End route_compiler_examples.

(** ** The preview dispatcher *)

Section preview_dispatcher.

Import MultipleViewPageMixin.

Context `{Host}.

(** Every step of route compilation keeps this: each preview mode has its
    serve method. *)
Lemma route_step_modes_reachable (c c1 : pyclass) (e : route_entry) :
  route_step c e = Ok c1 →
  (∀ k, k ∈ (DEFAULT_PREVIEW_MODES c).*1 → reachable c (serve_name k)) →
  ∀ k, k ∈ (DEFAULT_PREVIEW_MODES c1).*1 → reachable c1 (serve_name k).
Proof.
  intros Hstep Hinv k Hk. destruct (enabled e) eqn:Hen.
  - destruct (enabled_value e Hen) as (pattern & Hv & Ht).
    destruct (mro_lookup (serve_name (key e)) (own c :: mro_tail c)) as [f|] eqn:Hf.
    + rewrite (route_step_bound c e pattern f Hv Ht Hf) in Hstep.
      injection Hstep as <-. cbn in Hk. rewrite fmap_app in Hk.
      apply elem_of_app in Hk as [Hk|Hk].
      * apply reachable_setattr. by apply Hinv.
      * apply list_elem_of_singleton in Hk as ->. unfold reachable. cbn.
        by rewrite lookup_insert_eq.
    + destruct (route_step_missing c e Hen Hf) as [msg Hmsg]. congruence.
  - rewrite route_step_disabled in Hstep by done. injection Hstep as <-. by apply Hinv.
Qed.

Lemma route_loop_modes_reachable (cfg : list route_entry) : ∀ c c' : pyclass,
  route_loop cfg c = Ok c' →
  (∀ k, k ∈ (DEFAULT_PREVIEW_MODES c).*1 → reachable c (serve_name k)) →
  ∀ k, k ∈ (DEFAULT_PREVIEW_MODES c').*1 → reachable c' (serve_name k).
Proof.
  induction cfg as [|e cfg IH]; intros c c' Hrun Hinv.
  - cbn in Hrun. by injection Hrun as <-.
  - cbn [route_loop] in Hrun. destruct (route_step c e) as [c1|err] eqn:Hstep; [|done].
    cbn [mbind result_bind] in Hrun. apply (IH c1 c' Hrun).
    by apply (route_step_modes_reachable c c1 e).
Qed.

(** X1.  On a compiled page class every preview mode has its serve method,
    so the dispatcher always finds a method for an enabled mode. *)
Lemma compiled_modes_have_methods (c c' : pyclass) (self : page) (mode_name : string) :
  is_page c = true →
  __init_subclass__ c = Ok c' →
  page_class self = c' →
  mode_name ∈ (preview_modes self).*1 →
  ∃ serve, preview_serve_method self mode_name = Ok serve.
Proof.
  intros Hpage Hc <- Hmode. unfold __init_subclass__ in Hc. rewrite Hpage in Hc.
  assert (reachable (page_class self) (serve_name mode_name)) as [f Hf].
  { apply (route_loop_modes_reachable _ _ _ Hc); [|exact Hmode].
    cbn. intros k Hk. by apply elem_of_nil in Hk. }
  unfold preview_serve_method, getattr_callable.
  destruct (mro_lookup ("serve_preview_" +:+ mode_name) _) as [g|]; [by exists g|].
  change ("serve_" +:+ mode_name) with (serve_name mode_name).
  cbn [mro_lookup] in *. destruct (inst_callables self !! serve_name mode_name) as [g|].
  - by exists g.
  - rewrite Hf. by exists f.
Qed.

(** C3.  For a mode among the enabled preview modes the dispatcher takes
    [serve_preview_<mode>] when the page has it and [serve_<mode>] otherwise,
    calls it with the request on which [is_preview] has been set to [True],
    and returns its response with [patch_cache_control(response,
    private=True)] applied; an exception of the serve method is the
    exception of the dispatcher. *)
Theorem serve_preview_enabled_mode (self : page) (mode_name : string) (serve : fn)
    (request : gmap string pyval) :
  mode_name ∈ (preview_modes self).*1 →
  getattr_callable self ("serve_preview_" +:+ mode_name) = Ok serve
  ∨ ((∃ msg, getattr_callable self ("serve_preview_" +:+ mode_name)
             = Raise (AttributeError msg))
     ∧ getattr_callable self ("serve_" +:+ mode_name) = Ok serve) →
  serve_preview self mode_name request =
    match call serve self (<["is_preview" := PBool true]> request) with
    | (Ok response, request') =>
        (Ok (patch_cache_control response [("private", PBool true)]), request')
    | (Raise e, request') => (Raise e, request')
    end.
Proof.
  intros Hmode Hserve.
  assert (preview_serve_method self mode_name = Ok serve) as Hfound.
  { unfold preview_serve_method. destruct Hserve as [->|[[msg ->] ->]]; reflexivity. }
  unfold serve_preview, mbind, action_bind, request_setattr, lift.
  rewrite bool_decide_eq_true_2 by exact Hmode. rewrite Hfound.
  destruct (call serve self _) as [[response|e] request']; reflexivity.
Qed.

(** C4 (amended).  For a mode that is not among the enabled preview modes
    the dispatcher hands the call to the inherited [serve_preview], with the
    same mode name and with the request on which [is_preview] has been set to
    [True] and nothing else changed; no serve method is looked up or
    called. *)
Theorem serve_preview_unknown_mode (self : page) (mode_name : string)
    (request : gmap string pyval) :
  mode_name ∉ (preview_modes self).*1 →
  serve_preview self mode_name request =
    super_serve_preview self mode_name (<["is_preview" := PBool true]> request).
Proof.
  intros Hmode. unfold serve_preview, mbind, action_bind, request_setattr.
  by rewrite bool_decide_eq_false_2.
Qed.

End preview_dispatcher.

Section preview_dispatcher_examples.

Import MultipleViewPageMixin Demo.

Lemma serve_preview_enabled_mode_witness :
  "pdf" ∈ (preview_modes (instance CompiledPdfPage ∅ (Some "/doc/"))).*1
  ∧ serve_preview (instance CompiledPdfPage ∅ (Some "/doc/")) "pdf" ∅ =
      (Ok ["route(PdfViewPageMixin.serve_pdf, ^pdf/$)"; "Cache-Control: private"],
       {["is_preview" := PBool true;
         "served_by" := PStr "route(PdfViewPageMixin.serve_pdf, ^pdf/$)"]}).
Proof.
  split.
  - apply (bool_decide_unpack _). vm_compute. exact I.
  - refine (eq_trans
              (serve_preview_enabled_mode (instance CompiledPdfPage ∅ (Some "/doc/")) "pdf"
                 "route(PdfViewPageMixin.serve_pdf, ^pdf/$)" ∅ _ _) _).
    + apply (bool_decide_unpack _). vm_compute. exact I.
    + right. split; [eexists|]; reflexivity.
    + vm_compute. reflexivity.
Defined.

(** An exception of the serve method comes out of the dispatcher as it is. *)
Example serve_preview_propagates (e : exn) :
  let failing : Host :=
    {| call f self := λ request, (Raise e, request);
       reverse_subpage := reverse_subpage;
       super_serve_preview := super_serve_preview;
       as_view := as_view |} in
  (@serve_preview _ failing (instance CompiledPdfPage ∅ (Some "/doc/")) "pdf" ∅).1 = Raise e.
Proof. reflexivity. Qed.

(** C4, as stated, fails on a request without the preview mark: the
    inherited [serve_preview] does not get the request as it was passed in
    but one with [is_preview] set, and here it answers differently. *)
Lemma serve_preview_unknown_mode_marks_request :
  ("json" ∉ (preview_modes (instance CompiledPdfPage ∅ (Some "/doc/"))).*1)
  ∧ super_serve_preview (instance CompiledPdfPage ∅ (Some "/doc/")) "json" ∅ = (Ok ["live"], ∅)
  ∧ serve_preview (instance CompiledPdfPage ∅ (Some "/doc/")) "json" ∅
    = (Ok ["preview"], {["is_preview" := PBool true]})
  ∧ serve_preview (instance CompiledPdfPage ∅ (Some "/doc/")) "json" ∅
    ≠ super_serve_preview (instance CompiledPdfPage ∅ (Some "/doc/")) "json" ∅.
Proof.
  split; [apply (bool_decide_unpack _); vm_compute; exact I|].
  split; [reflexivity|]. split; [reflexivity|].
  intros Heq. vm_compute in Heq. discriminate Heq.
Qed.

Lemma serve_preview_unknown_mode_witness :
  ("json" ∉ (preview_modes (instance CompiledPdfPage ∅ (Some "/doc/"))).*1)
  ∧ serve_preview (instance CompiledPdfPage ∅ (Some "/doc/")) "json" ∅ =
      super_serve_preview (instance CompiledPdfPage ∅ (Some "/doc/")) "json"
        (<["is_preview" := PBool true]> ∅).
Proof.
  split; [apply (bool_decide_unpack _); vm_compute; exact I|].
  apply (serve_preview_unknown_mode (instance CompiledPdfPage ∅ (Some "/doc/")) "json" ∅).
  apply (bool_decide_unpack _). vm_compute. exact I.
Defined.

End preview_dispatcher_examples.

(** ** The url attributes *)

Section url_attributes.

Import MultipleViewPageMixin.

Context `{Host}.

Implicit Types (self : page) (e : route_entry) (cfg : list route_entry).

Lemma hasattr_true self n : hasattr self n = true ↔ is_Some (attrs self !! n).
Proof. unfold hasattr. by rewrite bool_decide_eq_true. Qed.

Lemma hasattr_false self n : hasattr self n = false ↔ attrs self !! n = None.
Proof. unfold hasattr. by rewrite bool_decide_eq_false, eq_None_not_Some. Qed.

Lemma url_step_skip self e :
  enabled e = false ∨ hasattr self (url_name (key e)) = true → url_step self e = Ok self.
Proof. unfold url_step. by intros [->| ->]; rewrite ?andb_false_r. Qed.

Lemma url_step_set self e u sub :
  enabled e = true → hasattr self (url_name (key e)) = false →
  url self = Some u → reverse_subpage (page_class self) (route_name e) = Ok sub →
  url_step self e = Ok (setattr self (url_name (key e)) (PStr (ensure_slash u +:+ sub))).
Proof. unfold url_step. by intros -> -> -> ->. Qed.

(** A step that returns keeps the class and the attributes that are there,
    and leaves an enabled entry with its attribute. *)
Lemma url_step_ok self self1 e :
  url_step self e = Ok self1 →
  page_class self1 = page_class self
  ∧ (∀ n, hasattr self n = true → hasattr self1 n = true)
  ∧ (enabled e = true → hasattr self1 (url_name (key e)) = true).
Proof.
  unfold url_step.
  destruct (enabled e) eqn:Hen, (hasattr self (url_name (key e))) eqn:Hhas; cbn [andb negb];
    try (intros [= <-]; by repeat split).
  destruct (reverse_subpage _ _) as [sub|]; [|done]. cbn [mbind result_bind].
  destruct (str_add _ _) as [v|]; [|done]. intros [= <-]. cbn. repeat split.
  - intros n. rewrite !hasattr_true. cbn. destruct (decide (url_name (key e) = n)) as [->|].
    + by rewrite lookup_insert_eq.
    + by rewrite lookup_insert_ne.
  - intros _. apply hasattr_true. cbn. by rewrite lookup_insert_eq.
Qed.

Lemma url_loop_ok cfg : ∀ self self',
  url_loop cfg self = Ok self' →
  page_class self' = page_class self
  ∧ (∀ n, hasattr self n = true → hasattr self' n = true)
  ∧ (∀ e, e ∈ cfg → enabled e = true → hasattr self' (url_name (key e)) = true).
Proof.
  induction cfg as [|e cfg IH]; intros self self' Hrun.
  - injection Hrun as <-. repeat split; [done|]. intros e Hin. by apply elem_of_nil in Hin.
  - cbn [url_loop] in Hrun. destruct (url_step self e) as [self1|] eqn:Hstep; [|done].
    cbn [mbind result_bind] in Hrun.
    destruct (url_step_ok _ _ _ Hstep) as (Hc1 & Hkeep1 & Hset1).
    destruct (IH _ _ Hrun) as (Hc & Hkeep & Hset). repeat split.
    + by rewrite Hc.
    + intros n Hn. by apply Hkeep, Hkeep1.
    + intros e' [->|Hin]%elem_of_cons Hen; [by apply Hkeep, Hset1 | by apply Hset].
Qed.

(** The loop does nothing on an instance that has all the attributes. *)
Lemma url_loop_noop cfg self :
  (∀ e, e ∈ cfg → enabled e = true → hasattr self (url_name (key e)) = true) →
  url_loop cfg self = Ok self.
Proof.
  induction cfg as [|e cfg IH]; intros Hall; [done|]. cbn [url_loop].
  rewrite url_step_skip.
  - cbn [mbind result_bind]. apply IH. intros e' Hin. apply Hall. by right.
  - destruct (enabled e) eqn:Hen; [right | by left]. apply Hall; [left | done].
Qed.

(** Running the assignment again on the instance it produced changes
    nothing. *)
Lemma init_idempotent self self' : __init__ self = Ok self' → __init__ self' = Ok self'.
Proof.
  unfold __init__. intros (Hc & _ & Hset)%url_loop_ok. rewrite Hc. by apply url_loop_noop.
Qed.

(** What the loop leaves on an instance with a url when the sub-paths of
    the enabled entries can be reversed. *)
Lemma url_loop_attrs cfg (u : string) (sub : string → string) : ∀ self,
  url self = Some u →
  (∀ e, e ∈ cfg → enabled e = true →
        reverse_subpage (page_class self) (route_name e) = Ok (sub (route_name e))) →
  ∃ self', url_loop cfg self = Ok self'
    ∧ ∀ n, attrs self' !! n =
           match attrs self !! n with
           | Some v => Some v
           | None =>
               (λ e, PStr (ensure_slash u +:+ sub (route_name e))) <$> first_entry_for n cfg
           end.
Proof.
  induction cfg as [|e cfg IH]; intros self Hu Hrev.
  - exists self. split; [done|]. intros n. by destruct (attrs self !! n).
  - cbn [url_loop].
    destruct (enabled e) eqn:Hen; [destruct (hasattr self (url_name (key e))) eqn:Hhas|].
    + rewrite url_step_skip by (by right). cbn [mbind result_bind].
      destruct (IH self Hu) as (self' & Hrun & Hattrs).
      { intros e' Hin. apply Hrev. by right. }
      exists self'. split; [exact Hrun|]. intros n. rewrite Hattrs.
      destruct (attrs self !! n) eqn:Hn; [done|]. unfold first_entry_for. cbn [find].
      rewrite Hen. cbn [andb]. case_bool_decide as Hname; [|done].
      apply hasattr_true in Hhas as [v Hv]. congruence.
    + rewrite (url_step_set self e u (sub (route_name e))); [|done..|by apply Hrev; [left|]].
      cbn [mbind result_bind]. set (self1 := setattr _ _ _).
      destruct (IH self1 Hu) as (self' & Hrun & Hattrs).
      { intros e' Hin. apply (Hrev e'). by right. }
      exists self'. split; [exact Hrun|]. intros n. rewrite Hattrs.
      subst self1. cbn [attrs setattr].
      unfold first_entry_for at 2. cbn [find]. rewrite Hen. cbn [andb].
      apply hasattr_false in Hhas. case_bool_decide as Hname.
      * subst n. by rewrite lookup_insert_eq, Hhas.
      * rewrite lookup_insert_ne by done. done.
    + rewrite url_step_skip by (by left). cbn [mbind result_bind].
      destruct (IH self Hu) as (self' & Hrun & Hattrs).
      { intros e' Hin. apply Hrev. by right. }
      exists self'. split; [exact Hrun|]. intros n. rewrite Hattrs.
      unfold first_entry_for. cbn [find]. by rewrite Hen.
Qed.

End url_attributes.

Section url_attributes_claims.

Import MultipleViewPageMixin.

Context `{Host}.

Lemma endswith_iff (s p : string) : endswith s p = true ↔ ∃ a, s = a +:+ p.
Proof.
  split; [|intros [a ->]; apply endswith_app].
  induction s as [|c s IH]; cbn [endswith]; intros [Heq|Htail]%orb_true_iff.
  - apply String.eqb_eq in Heq as <-. by exists "".
  - done.
  - apply String.eqb_eq in Heq as <-. by exists "".
  - destruct (IH Htail) as [a ->]. by exists (String c a).
Qed.

Lemma ensure_slash_cases (u : string) :
  u = "" ∧ ensure_slash u = ""
  ∨ u ≠ "" ∧ (∃ p, u = p +:+ "/") ∧ ensure_slash u = u
  ∨ u ≠ "" ∧ (¬ ∃ p, u = p +:+ "/") ∧ ensure_slash u = u +:+ "/".
Proof.
  destruct u as [|a u]; [by left|]. right. unfold ensure_slash. cbn [truthy_str andb].
  destruct (endswith (String a u) "/") eqn:E; cbn [negb].
  - left. split; [done|]. split; [by apply endswith_iff | done].
  - right. split; [done|]. split; [|done]. intros Hends%endswith_iff. congruence.
Qed.

Lemma route_name_name_or_key (e : route_entry) : route_name e = name_or_key e.
Proof. unfold route_name, route_args, name_or_key. by destruct (args e). Qed.

Lemma url_name_inj (k k' : string) : url_name k = url_name k' → k = k'.
Proof. unfold url_name. intros [= E]. exact E. Qed.

Lemma find_pointwise {A : Type} (f g : A → bool) (l : list A) :
  (∀ x, f x = g x) → List.find f l = List.find g l.
Proof. intros Hfg. induction l as [|x l IH]; [done|]. cbn [find]. by rewrite Hfg, IH. Qed.

Lemma first_entry_for_spec (k : string) (cfg : list route_entry) :
  first_entry_for ("url_" +:+ k) cfg
  = List.find (λ e, has_pattern e && String.eqb (key e) k) cfg.
Proof.
  unfold first_entry_for. apply find_pointwise. intros e.
  apply (f_equal2 andb); [symmetry; apply has_pattern_enabled|].
  destruct (String.eqb_spec (key e) k) as [->|Hne].
  - by rewrite bool_decide_eq_true_2.
  - rewrite bool_decide_eq_false_2; [done|]. by intros Heq%url_name_inj.
Qed.

(** C5 (amended).  On an instance whose url is a string [u], and when the
    sub-paths of the entries with a non-empty pattern can be reversed,
    [__init__] returns.  An attribute [url_<key>] that was there is left as
    it was; one that was absent is set by the first entry
    [(key, pattern, name?)] with that key whose pattern is neither [None]
    nor the empty string, to [base] concatenated with the reversed sub-path
    of [name], or of [key] when the entry has no name, where [base] is [u]
    when [u] is empty or ends in a slash and [u] followed by a slash
    otherwise; without such an entry it stays absent.  Running the
    assignment again on the resulting instance changes nothing. *)
Theorem init_url_attributes (self : page) (u : string) (sub : string → string) :
  url self = Some u →
  (∀ e, e ∈ ROUTE_CONFIG (page_class self) → has_pattern e = true →
        reverse_subpage (page_class self) (name_or_key e) = Ok (sub (name_or_key e))) →
  ∃ self' base, __init__ self = Ok self'
    ∧ (u = "" ∧ base = ""
       ∨ u ≠ "" ∧ (∃ p, u = p +:+ "/") ∧ base = u
       ∨ u ≠ "" ∧ (¬ ∃ p, u = p +:+ "/") ∧ base = u +:+ "/")
    ∧ (∀ k, attrs self' !! ("url_" +:+ k) =
            match attrs self !! ("url_" +:+ k) with
            | Some v => Some v
            | None =>
                (λ e, PStr (base +:+ sub (name_or_key e)))
                  <$> List.find (λ e, has_pattern e && String.eqb (key e) k)
                        (ROUTE_CONFIG (page_class self))
            end)
    ∧ __init__ self' = Ok self'.
Proof.
  intros Hu Hrev.
  destruct (url_loop_attrs (ROUTE_CONFIG (page_class self)) u sub self Hu)
    as (self' & Hrun & Hattrs).
  { intros e Hin Hen. rewrite route_name_name_or_key. apply Hrev; [done|].
    by rewrite has_pattern_enabled. }
  exists self', (ensure_slash u). split; [exact Hrun|].
  split; [apply ensure_slash_cases|]. split; [|by apply (init_idempotent self)].
  intros k. rewrite Hattrs, first_entry_for_spec.
  destruct (attrs self !! ("url_" +:+ k)); [done|].
  destruct (find _ _) as [e|]; [|done]. cbn. by rewrite route_name_name_or_key.
Qed.

(** The name that is reversed is the third component of the entry, and the
    key when there is none. *)
Lemma route_name_spec (k : string) (v : option string) (name : string) (rest : list string) :
  route_name (RouteEntry k v []) = k ∧ route_name (RouteEntry k v (name :: rest)) = name.
Proof. done. Qed.

(** An instance without url: the first attribute to set raises. *)
Lemma init_without_url (self : page) (e : route_entry) (cfg : list route_entry) (sub : string) :
  url self = None →
  ROUTE_CONFIG (page_class self) = e :: cfg →
  enabled e = true → hasattr self (url_name (key e)) = false →
  reverse_subpage (page_class self) (route_name e) = Ok sub →
  ∃ msg, __init__ self = Raise (TypeError msg).
Proof.
  intros Hu Hcfg Hen Hhas Hsub. unfold __init__. rewrite Hcfg. cbn [url_loop].
  unfold url_step. rewrite Hen, Hhas, Hu, Hsub. cbn. eauto.
Qed.

End url_attributes_claims.

Section url_attributes_examples.

Import MultipleViewPageMixin Demo.

Lemma init_url_attributes_witness :
  url (instance NamedRoutePage {["url_html" := PStr "/custom/"]} (Some "/doc")) = Some "/doc"
  ∧ ∃ self', __init__ (instance NamedRoutePage {["url_html" := PStr "/custom/"]} (Some "/doc"))
             = Ok self'
    ∧ attrs self' !! "url_html" = Some (PStr "/custom/")
    ∧ attrs self' !! "url_pdf" = Some (PStr "/doc/document/")
    ∧ attrs self' !! "url_tex" = None
    ∧ __init__ self' = Ok self'.
Proof.
  split; [reflexivity|].
  destruct (init_url_attributes
              (instance NamedRoutePage {["url_html" := PStr "/custom/"]} (Some "/doc"))
              "/doc" (λ name, name +:+ "/") eq_refl)
    as (self' & base & Hinit & Hbase & Hattrs & Hidem).
  { intros e _ _. reflexivity. }
  assert (base = "/doc/") as ->.
  { destruct Hbase as [[Hu _]|[(_ & Hends & _)|(_ & _ & ->)]];
      [discriminate Hu | | reflexivity].
    apply endswith_iff in Hends. discriminate Hends. }
  exists self'. split; [exact Hinit|].
  split; [exact (Hattrs "html")|]. split; [exact (Hattrs "pdf")|].
  split; [exact (Hattrs "tex") | exact Hidem].
Defined.

(** The attribute that is there stays, the missing one is computed. *)
Example init_PdfPage :
  ∃ self', __init__ (instance CompiledPdfPage {["url_html" := PStr "/custom/"]} (Some "/doc"))
           = Ok self'
    ∧ attrs self' !! "url_html" = Some (PStr "/custom/")
    ∧ attrs self' !! "url_pdf" = Some (PStr "/doc/pdf/").
Proof. eexists. split; [reflexivity|]. split; reflexivity. Qed.

(** C5, as stated, fails for an entry whose pattern is the empty string:
    the pattern is not [None], the instance has no [url_html], and
    [__init__] sets none. *)
Lemma init_empty_pattern_no_url :
  non_null (RouteEntry "html" (Some "") []) = true
  ∧ RouteEntry "html" (Some "") [] ∈ ROUTE_CONFIG (EmptyPatternPage ∅)
  ∧ hasattr (instance (EmptyPatternPage ∅) ∅ (Some "/doc/")) "url_html" = false
  ∧ ∃ self', __init__ (instance (EmptyPatternPage ∅) ∅ (Some "/doc/")) = Ok self'
             ∧ attrs self' !! "url_html" = None.
Proof.
  split; [reflexivity|]. split; [left|]. split; [reflexivity|].
  eexists. split; reflexivity.
Qed.

(** The empty url gets no slash. *)
Example init_empty_url :
  ∃ self', __init__ (instance CompiledPdfPage ∅ (Some "")) = Ok self'
           ∧ attrs self' !! "url_pdf" = Some (PStr "pdf/").
Proof. eexists. split; reflexivity. Qed.

End url_attributes_examples.

(** ** Substitution in strings *)

Section replace_facts.

Lemma startswith_app (p s : string) : startswith (p +:+ s) p = true.
Proof. induction p as [|c p IH]; [done|]. simpl. by rewrite Ascii.eqb_refl. Qed.

Lemma startswith_refl (p : string) : startswith p p = true.
Proof. induction p as [|c p IH]; [done|]. simpl. by rewrite Ascii.eqb_refl. Qed.

Lemma occurs_unfold (sub s : string) :
  occurs sub s =
    startswith s sub || match s with EmptyString => false | String _ s' => occurs sub s' end.
Proof. by destruct s. Qed.

Lemma occurs_app (a sub b : string) : occurs sub (a +:+ sub +:+ b) = true.
Proof.
  induction a as [|c a IH].
  - change ("" +:+ sub +:+ b) with (sub +:+ b). by rewrite occurs_unfold, startswith_app.
  - change (String c a +:+ sub +:+ b) with (String c (a +:+ sub +:+ b)).
    rewrite occurs_unfold, IH. apply orb_true_r.
Qed.

Lemma append_empty_r (s : string) : s +:+ "" = s.
Proof.
  induction s as [|c s IH]; [done|].
  change (String c s +:+ "") with (String c (s +:+ "")). by rewrite IH.
Qed.

Lemma replace_from_skip_all (old new s : string) :
  replace_from (String.length s) old new s = "".
Proof. induction s as [|c s IH]; [done|]. exact IH. Qed.

(** When the only occurrence of [old] is the trailing one, that one is
    replaced. *)
Lemma replace_only_trailing (stem old new : string) :
  old ≠ "" → free_of old stem old = true →
  replace (stem +:+ old) old new = stem +:+ new.
Proof.
  intros Hold. unfold replace. induction stem as [|c stem IH]; intros Hfree.
  - destruct old as [|c old]; [done|]. change ("" +:+ String c old) with (String c old).
    cbn [replace_from]. replace (startswith (String c old) (String c old)) with true.
    + cbn [String.length]. rewrite Nat.sub_1_r. cbn [Nat.pred].
      by rewrite replace_from_skip_all, append_empty_r.
    + symmetry. apply startswith_refl.
  - cbn [free_of] in Hfree. apply andb_true_iff in Hfree as [Hhead Hfree].
    apply negb_true_iff in Hhead.
    change (String c stem +:+ old) with (String c (stem +:+ old)) in *.
    cbn [replace_from]. rewrite Hhead. rewrite IH by done. done.
Qed.

End replace_facts.

(** ** Templates and file names *)

Section pdf_model_mixin.

Import PdfModelMixin.

Lemma occurs_skip (a sub s : string) : occurs sub s = true → occurs sub (a +:+ s) = true.
Proof.
  intros Hs. induction a as [|c a IH]; [exact Hs|].
  change (String c a +:+ s) with (String c (a +:+ s)).
  rewrite occurs_unfold, IH. apply orb_true_r.
Qed.

(** C9.  [get_template] of the model mixin reads the attribute named by
    [ADMIN_TEMPLATE_ATTRIBUTE] for a view provider that is an
    [AdminViewMixin] and the one named by [TEMPLATE_ATTRIBUTE] otherwise
    ([admin_template_name] and [template_name] unless a class changes the
    constants).  Without that attribute it raises an [AttributeError] whose
    message contains the model name and the name of the missing attribute;
    with it, it returns the value of the attribute. *)
Theorem get_template_attribute (self : model) (request : gmap string pyval)
    (extension : option string) (view_provider : option view) :
  (attrs self !! template_attribute_for self view_provider = None →
   ∃ msg, get_template self request extension view_provider = Raise (AttributeError msg)
          ∧ occurs (model_name self) msg = true
          ∧ occurs (template_attribute_for self view_provider) msg = true)
  ∧ (∀ v, attrs self !! template_attribute_for self view_provider = Some v →
          get_template self request extension view_provider = Ok v)
  ∧ (∀ a n, template_attribute_for (plain_model a n) view_provider =
            if isinstance_AdminViewMixin view_provider
            then "admin_template_name" else "template_name").
Proof.
  split; [|split].
  - intros Hmiss. unfold get_template. rewrite Hmiss. eexists. split; [reflexivity|].
    split.
    + apply occurs_app.
    + do 3 apply occurs_skip. apply occurs_app.
  - intros v Hv. unfold get_template. by rewrite Hv.
  - intros a n. unfold template_attribute_for. by destruct (isinstance_AdminViewMixin _).
Qed.

Lemma get_template_attribute_witness :
  (∃ msg, get_template (plain_model ∅ "invoice") ∅ None (Some (View true))
          = Raise (AttributeError msg)
          ∧ occurs "invoice" msg = true
          ∧ occurs "admin_template_name" msg = true)
  ∧ get_template (plain_model {["template_name" := PStr "invoice.html"]} "invoice") ∅ None None
    = Ok (PStr "invoice.html").
Proof.
  split.
  - apply (proj1 (get_template_attribute (plain_model ∅ "invoice") ∅ None (Some (View true)))).
    reflexivity.
  - apply (proj1 (proj2 (get_template_attribute
                           (plain_model {["template_name" := PStr "invoice.html"]} "invoice")
                           ∅ None None))).
    reflexivity.
Defined.

(** The text of the error. *)
Example get_template_error_message :
  get_template (plain_model ∅ "invoice") ∅ None None =
    Raise (AttributeError
             ("Template attribute not found for model invoice. "
              +:+ "Try to add template_name='path/to/your/template_file' to invoice")).
Proof. reflexivity. Qed.

End pdf_model_mixin.

Section pdf_view_page_mixin_templates.

Import PdfViewPageMixin.

Implicit Types (super_get_template : gmap string pyval → result pyval).

(** C7 (amended).  When the next [get_template] returns the string [t] and
    the extension is a non-empty string, [get_template] returns [t] with
    every occurrence of [.html] (from left to right, not overlapping)
    replaced by a dot and the extension; when the only occurrence is the
    trailing one, that one is replaced, so [foo.html] becomes [foo.tex]. *)
Theorem get_template_extension super_get_template (request : gmap string pyval)
    (ext t : string) (view_provider : option PdfModelMixin.view) :
  super_get_template request = Ok (PStr t) →
  ext ≠ "" →
  get_template super_get_template request (Some ext) view_provider
    = Ok (PStr (replace t ".html" ("." +:+ ext)))
  ∧ (∀ stem, t = stem +:+ ".html" → free_of ".html" stem ".html" = true →
             get_template super_get_template request (Some ext) view_provider
             = Ok (PStr (stem +:+ "." +:+ ext))).
Proof.
  intros Hsuper Hext.
  assert (get_template super_get_template request (Some ext) view_provider
          = Ok (PStr (replace t ".html" ("." +:+ ext)))) as Hres.
  { unfold get_template. rewrite Hsuper. cbn [mbind result_bind apply_extension].
    destruct ext; [done|]. reflexivity. }
  split; [exact Hres|]. intros stem -> Hfree. rewrite Hres.
  by rewrite replace_only_trailing.
Qed.

Lemma get_template_extension_witness :
  get_template (λ _, Ok (PStr "foo.html")) ∅ (Some "tex") None = Ok (PStr "foo.tex")
  ∧ get_template (λ _, Ok (PStr "foo.html")) ∅ (Some "tex") None
    = Ok (PStr (replace "foo.html" ".html" ("." +:+ "tex"))).
Proof.
  split.
  - apply (proj2 (get_template_extension (λ _, Ok (PStr "foo.html")) ∅ "tex" "foo.html" None
                    eq_refl ltac:(discriminate)) "foo"); reflexivity.
  - apply (proj1 (get_template_extension (λ _, Ok (PStr "foo.html")) ∅ "tex" "foo.html" None
                    eq_refl ltac:(discriminate))).
Defined.

(** C7, as stated, fails in two places: an occurrence of [.html] that is
    not the trailing one is replaced as well, and the empty extension, which
    is not [None], replaces nothing. *)
Lemma get_template_not_trailing_only :
  get_template (λ _, Ok (PStr "docs.html/index.html")) ∅ (Some "tex") None
    = Ok (PStr "docs.tex/index.tex")
  ∧ replace_trailing "docs.html/index.html" ".html" ("." +:+ "tex") = "docs.html/index.tex"
  ∧ get_template (λ _, Ok (PStr "foo.html")) ∅ (Some "") None = Ok (PStr "foo.html")
  ∧ replace_trailing "foo.html" ".html" ("." +:+ "") = "foo."
  ∧ get_template (λ _, Ok (PStr "docs.html/index.html")) ∅ (Some "tex") None
    ≠ Ok (PStr (replace_trailing "docs.html/index.html" ".html" ("." +:+ "tex"))).
Proof. repeat split; try reflexivity. intros Heq. vm_compute in Heq. discriminate Heq. Qed.

(** Without extension the template comes back as it is, and an error of the
    next [get_template] is the error of this one. *)
Lemma get_template_no_extension super_get_template (request : gmap string pyval)
    (view_provider : option PdfModelMixin.view) :
  get_template super_get_template request None view_provider = super_get_template request.
Proof. unfold get_template. by destruct (super_get_template request). Qed.

(** C10.  The result of [get_template] of the page mixin does not depend on
    [view_provider], whatever the next [get_template] is; when that is the
    one of [PdfModelMixin], the template is read from the attribute named by
    [TEMPLATE_ATTRIBUTE] for every view provider, an admin view included,
    and [ADMIN_TEMPLATE_ATTRIBUTE] is not consulted. *)
Theorem get_template_ignores_view_provider super_get_template (self : PdfModelMixin.model)
    (request : gmap string pyval) (extension : option string)
    (vp1 vp2 : option PdfModelMixin.view) :
  get_template super_get_template request extension vp1
    = get_template super_get_template request extension vp2
  ∧ get_template_on_model self request extension vp1
    = get_template_on_model self request extension vp2
  ∧ get_template_on_model self request extension vp1
    = (template_name ←
         match PdfModelMixin.attrs self !! PdfModelMixin.TEMPLATE_ATTRIBUTE self with
         | Some v => Ok v
         | None =>
             Raise (PdfModelMixin.template_not_found self (PdfModelMixin.TEMPLATE_ATTRIBUTE self))
         end;
       apply_extension template_name extension).
Proof. repeat split. Qed.

(** The model mixin itself does select the admin template for an admin
    view; the page mixin, on the same model, does not. *)
Example get_template_admin_contrast :
  let m := PdfModelMixin.plain_model
             {["template_name" := PStr "page.html"; "admin_template_name" := PStr "admin.html"]}
             "page" in
  PdfModelMixin.get_template m ∅ None (Some (PdfModelMixin.View true)) = Ok (PStr "admin.html")
  ∧ get_template_on_model m ∅ None (Some (PdfModelMixin.View true)) = Ok (PStr "page.html")
  ∧ get_template_on_model m ∅ (Some "tex") (Some (PdfModelMixin.View true)) = Ok (PStr "page.tex").
Proof. repeat split. Qed.

End pdf_view_page_mixin_templates.

Section pdf_file_names.

Import MultipleViewPageMixin.

Context `{Framework}.

(** C8.  [get_pdf_filename] of the page mixin is the slugified title
    followed by [.pdf] when [pdf_slugify_document_name] is on, and the title
    itself followed by [.pdf] when it is off: for the title [My Page], which
    Django slugifies to [my-page], that is [my-page.pdf] and [My Page.pdf].
    [get_pdf_filename] of the model mixin is the model name followed by
    [.pdf]. *)
Theorem get_pdf_filename_spec (self : page) (m : PdfModelMixin.model)
    (request : gmap string pyval) :
  title self = "My Page" →
  slugify "My Page" = "my-page" →
  PdfViewPageMixin.get_pdf_filename self request
    = (if pdf_slugify_document_name self then "my-page.pdf" else "My Page.pdf")
  ∧ (∀ p : page,
       PdfViewPageMixin.get_pdf_filename p request
       = (if pdf_slugify_document_name p then slugify (title p) else title p) +:+ ".pdf")
  ∧ PdfModelMixin.get_pdf_filename m request = PdfModelMixin.model_name m +:+ ".pdf".
Proof.
  intros Htitle Hslug. unfold PdfViewPageMixin.get_pdf_filename. rewrite Htitle, Hslug.
  split; [by destruct (pdf_slugify_document_name self)|]. split; [|done].
  intros p. by destruct (pdf_slugify_document_name p).
Qed.

End pdf_file_names.

Section pdf_file_names_examples.

Import MultipleViewPageMixin Demo.

(** The model of [slugify] on the title of the specification. *)
Example slugify_my_page :
  slugify_ascii "My Page" = "my-page" ∧ slugify_ascii "  Hello,  World! -- 2nd_ed " = "hello-world-2nd_ed".
Proof. split; reflexivity. Qed.

Lemma get_pdf_filename_spec_witness :
  PdfViewPageMixin.get_pdf_filename (Page _ CompiledPdfPage ∅ ∅ None "My Page" true None) ∅
    = "my-page.pdf"
  ∧ PdfViewPageMixin.get_pdf_filename (Page _ CompiledPdfPage ∅ ∅ None "My Page" false None) ∅
    = "My Page.pdf"
  ∧ PdfModelMixin.get_pdf_filename (PdfModelMixin.plain_model ∅ "invoice") ∅ = "invoice.pdf".
Proof.
  split; [|split].
  - apply (get_pdf_filename_spec (Page _ CompiledPdfPage ∅ ∅ None "My Page" true None)
             (PdfModelMixin.plain_model ∅ "invoice") ∅ eq_refl eq_refl).
  - apply (get_pdf_filename_spec (Page _ CompiledPdfPage ∅ ∅ None "My Page" false None)
             (PdfModelMixin.plain_model ∅ "invoice") ∅ eq_refl eq_refl).
  - apply (get_pdf_filename_spec (Page _ CompiledPdfPage ∅ ∅ None "My Page" true None)
             (PdfModelMixin.plain_model ∅ "invoice") ∅ eq_refl eq_refl).
Defined.

End pdf_file_names_examples.

(** ** Serving the pdf *)

Section pdf_serve.

Import MultipleViewPageMixin PdfViewPageMixin.

Context `{Host}.

(** C6 (amended).  [serve_pdf], called with keyword arguments that do not
    themselves name [object] or [mode], takes the view of the provider of
    the class, calls it with the request, [object] the page and [mode] set to
    [pdf], and returns its response with [add_never_cache_headers] applied
    (an exception of the view is the exception of [serve_pdf]).  When
    [PDF_VIEW_PROVIDER] is [None], which is what the settings default to when
    neither backend can be imported, it raises, before any view is called,
    the [AttributeError] of the interpreter for [None.as_view]; the only
    message about the missing provider is the warning printed when the
    module is imported. *)
Theorem serve_pdf_dispatch (self : page) (kwargs request : gmap string pyval) :
  "object" ∉ dom kwargs →
  "mode" ∉ dom kwargs →
  serve_pdf self kwargs request =
    match PDF_VIEW_PROVIDER self with
    | Some p =>
        match as_view p self "pdf" kwargs request with
        | (Ok response, request') => (Ok (add_never_cache_headers response), request')
        | (Raise e, request') => (Raise e, request')
        end
    | None =>
        (Raise (AttributeError "'NoneType' object has no attribute 'as_view'"), request)
    end
  ∧ PDF_VIEW_PROVIDER_of_settings (P := provider) None None None = None
  ∧ import_output (P := provider) None None =
      ["Warning: DEFAULT_PDF_VIEW_PROVIDER unspecified."
       +:+ "Make sure you have either django-weasyprint or django-tex installed, or provide a default."].
Proof.
  intros Hobject Hmode. split; [|done].
  unfold serve_pdf, get_pdf_view, call_view, mbind, action_bind, lift.
  destruct (PDF_VIEW_PROVIDER self) as [p|]; [|done].
  rewrite bool_decide_eq_false_2 by (intros [?|?]; done).
  by destruct (as_view p self "pdf" kwargs request) as [[response|e] request'].
Qed.

(** The provider that the class gets: the setting when there is one, else
    the first backend that can be imported. *)
Lemma PDF_VIEW_PROVIDER_precedence (setting : option provider) (weasy tex : provider * provider) :
  PDF_VIEW_PROVIDER_of_settings (Some setting) (Some weasy) (Some tex) = setting
  ∧ PDF_VIEW_PROVIDER_of_settings None (Some weasy) (Some tex) = Some weasy.1
  ∧ PDF_VIEW_PROVIDER_of_settings None None (Some tex) = Some tex.1
  ∧ import_output (Some weasy) None = [] ∧ import_output None (Some tex) = [].
Proof. by destruct weasy, tex. Qed.

End pdf_serve.

Section pdf_serve_examples.

Import MultipleViewPageMixin PdfViewPageMixin Demo.

Lemma serve_pdf_dispatch_witness :
  serve_pdf (instance CompiledPdfPage ∅ (Some "/doc/")) ∅ ∅
    = (Ok ["WagtailWeasyView"; "My Page"; "pdf"; "never-cache"], ∅)
  ∧ serve_pdf (Page _ CompiledPdfPage ∅ ∅ None "My Page" true
                 (PDF_VIEW_PROVIDER_of_settings None None None)) ∅ ∅
    = (Raise (AttributeError "'NoneType' object has no attribute 'as_view'"), ∅).
Proof.
  split.
  - refine (eq_trans
              (proj1 (serve_pdf_dispatch (instance CompiledPdfPage ∅ (Some "/doc/")) ∅ ∅ _ _)) _).
    + apply (bool_decide_unpack _). vm_compute. exact I.
    + apply (bool_decide_unpack _). vm_compute. exact I.
    + vm_compute. reflexivity.
  - refine (eq_trans
              (proj1 (serve_pdf_dispatch
                        (Page _ CompiledPdfPage ∅ ∅ None "My Page" true
                           (PDF_VIEW_PROVIDER_of_settings None None None)) ∅ ∅ _ _)) _).
    + apply (bool_decide_unpack _). vm_compute. exact I.
    + apply (bool_decide_unpack _). vm_compute. exact I.
    + reflexivity.
Defined.

(** C6, as stated, fails on a page without provider: what [serve_pdf]
    raises is the [AttributeError] of the interpreter, and its message says
    nothing of a provider. *)
Lemma serve_pdf_no_provider_error :
  ∃ msg,
    serve_pdf (Page _ CompiledPdfPage ∅ ∅ None "My Page" true
                 (PDF_VIEW_PROVIDER_of_settings None None None)) ∅ ∅
      = (Raise (AttributeError msg), ∅)
    ∧ msg = "'NoneType' object has no attribute 'as_view'"
    ∧ occurs "provider" msg = false
    ∧ occurs "PROVIDER" msg = false
    ∧ occurs "configured" msg = false.
Proof. eexists. repeat split. Qed.

(** A keyword that names [object] or [mode] again is a [TypeError]. *)
Example serve_pdf_duplicate_keyword :
  ∃ msg, serve_pdf (instance CompiledPdfPage ∅ (Some "/doc/")) {["mode" := PStr "html"]} ∅
         = (Raise (TypeError msg), ∅).
Proof. eexists. reflexivity. Qed.

End pdf_serve_examples.

(** * Further properties *)

(** ** Route compilation: what is bound, and which error comes first *)

Section route_compiler_more.

Import MultipleViewPageMixin.

Context `{Framework}.

Implicit Types (c : pyclass) (e : route_entry) (cfg : list route_entry).

Lemma route_loop_app cfg1 cfg2 c :
  route_loop (cfg1 ++ cfg2) c = (c1 ← route_loop cfg1 c; route_loop cfg2 c1).
Proof.
  revert c. induction cfg1 as [|e cfg1 IH]; intros c; [done|].
  cbn [app route_loop]. destruct (route_step c e) as [c1|err]; [|done].
  cbn [mbind result_bind]. apply IH.
Qed.

(** A step that returns changes neither the name, nor the base classes, nor
    the configuration. *)
Lemma route_step_frame c c1 e :
  route_step c e = Ok c1 →
  cls_name c1 = cls_name c ∧ is_page c1 = is_page c
  ∧ mro_tail c1 = mro_tail c ∧ ROUTE_CONFIG c1 = ROUTE_CONFIG c
  ∧ DEFAULT_PREVIEW_MODES c1 =
      DEFAULT_PREVIEW_MODES c ++ (preview_mode_of <$> List.filter enabled [e]).
Proof.
  intros Hstep. destruct (enabled e) eqn:Hen.
  - destruct (enabled_value e Hen) as (pattern & Hv & Ht).
    destruct (mro_lookup (serve_name (key e)) (own c :: mro_tail c)) as [f|] eqn:Hf.
    + rewrite (route_step_bound c e pattern f Hv Ht Hf) in Hstep.
      injection Hstep as <-. cbn. by rewrite Hen.
    + destruct (route_step_missing c e Hen Hf) as [msg Hmsg]. congruence.
  - rewrite route_step_disabled in Hstep by done. injection Hstep as <-.
    cbn. rewrite Hen. cbn. by rewrite app_nil_r.
Qed.

Lemma route_loop_frame cfg : ∀ c c',
  route_loop cfg c = Ok c' →
  cls_name c' = cls_name c ∧ is_page c' = is_page c
  ∧ mro_tail c' = mro_tail c ∧ ROUTE_CONFIG c' = ROUTE_CONFIG c
  ∧ DEFAULT_PREVIEW_MODES c' =
      DEFAULT_PREVIEW_MODES c ++ (preview_mode_of <$> List.filter enabled cfg).
Proof.
  induction cfg as [|e cfg IH]; intros c c' Hrun.
  - injection Hrun as <-. cbn. by rewrite app_nil_r.
  - cbn [route_loop] in Hrun. destruct (route_step c e) as [c1|err] eqn:Hstep; [|done].
    cbn [mbind result_bind] in Hrun.
    destruct (route_step_frame _ _ _ Hstep) as (Hn1 & Hp1 & Ht1 & Hc1 & Hm1).
    destruct (IH _ _ Hrun) as (Hn & Hp & Ht & Hc & Hm).
    rewrite Hn, Hp, Ht, Hc, Hm, Hn1, Hp1, Ht1, Hc1, Hm1. repeat split.
    rewrite <- app_assoc, <- fmap_app. do 2 f_equal.
    change (e :: cfg) with ([e] ++ cfg). by rewrite List.filter_app.
Qed.

Lemma route_loop_keeps_missing cfg : ∀ c c' n,
  route_loop cfg c = Ok c' →
  mro_lookup n (own c :: mro_tail c) = None →
  mro_lookup n (own c' :: mro_tail c') = None.
Proof.
  induction cfg as [|e cfg IH]; intros c c' n Hrun Hn.
  - by injection Hrun as <-.
  - cbn [route_loop] in Hrun. destruct (route_step c e) as [c1|err] eqn:Hstep; [|done].
    cbn [mbind result_bind] in Hrun. apply (IH c1 c' n Hrun).
    by apply (route_step_keeps_missing c c1 e).
Qed.

Lemma rebind_cons (f : fn) e (es : list route_entry) :
  rebind f (e :: es) = rebind (route_function f (pattern_of e) (route_args e)) es.
Proof. done. Qed.

Lemma route_loop_rebinds cfg : ∀ c c' k f,
  route_loop cfg c = Ok c' →
  mro_lookup (serve_name k) (own c :: mro_tail c) = Some f →
  mro_lookup (serve_name k) (own c' :: mro_tail c') = Some (rebind f (binders k cfg)).
Proof.
  induction cfg as [|e cfg IH]; intros c c' k f Hrun Hf.
  - by injection Hrun as <-.
  - cbn [route_loop] in Hrun. destruct (route_step c e) as [c1|err] eqn:Hstep; [|done].
    cbn [mbind result_bind] in Hrun. unfold binders. cbn [List.filter].
    destruct (enabled e) eqn:Hen; cbn [andb].
    + destruct (enabled_value e Hen) as (pattern & Hv & Ht).
      destruct (mro_lookup (serve_name (key e)) (own c :: mro_tail c)) as [g|] eqn:Hg.
      * rewrite (route_step_bound c e pattern g Hv Ht Hg) in Hstep. injection Hstep as <-.
        case_bool_decide as Hk.
        -- subst k. rewrite rebind_cons. apply (IH _ c' _ _ Hrun).
           cbn. rewrite lookup_insert_eq. unfold pattern_of. rewrite Hv. cbn. congruence.
        -- apply (IH _ c' _ _ Hrun). cbn. rewrite lookup_insert_ne; [exact Hf|].
           intros Heq%serve_name_inj. done.
      * destruct (route_step_missing c e Hen Hg) as [msg Hmsg]. congruence.
    + rewrite route_step_disabled in Hstep by done. injection Hstep as <-.
      by apply (IH c c').
Qed.

(** X2.  After a route compilation that returns, what [getattr] finds under
    [serve_<k>] on the class is the method it found before, wrapped by
    [route_function] once for every entry with key [k] and a non-empty
    pattern, in the order of the entries (a later entry with the same key
    wraps the method that an earlier one bound); a key without such an entry
    keeps its method. *)
Theorem init_subclass_rebinds (c c' : pyclass) (k : string) (f : fn) :
  is_page c = true →
  __init_subclass__ c = Ok c' →
  mro_lookup (serve_name k) (own c :: mro_tail c) = Some f →
  mro_lookup (serve_name k) (own c' :: mro_tail c')
    = Some (rebind f (binders k (ROUTE_CONFIG c))).
Proof.
  intros Hpage Hrun Hf. unfold __init_subclass__ in Hrun. rewrite Hpage in Hrun.
  by apply (route_loop_rebinds _ _ _ _ _ Hrun).
Qed.

(** X3.  When the entries before [e] all find their methods and [e], with a
    non-empty pattern, does not, route compilation raises the
    [AttributeError] of [getattr] for the class and [serve_<key of e>]:
    the error names the first entry, in the order of the configuration,
    whose method is missing. *)
Theorem init_subclass_first_missing (c : pyclass) (pre post : list route_entry)
    (e : route_entry) :
  is_page c = true →
  ROUTE_CONFIG c = pre ++ e :: post →
  (∀ e', e' ∈ pre → enabled e' = true → reachable c (serve_name (key e'))) →
  enabled e = true →
  mro_lookup (serve_name (key e)) (own c :: mro_tail c) = None →
  __init_subclass__ c =
    Raise (AttributeError
             ("type object '" +:+ cls_name c +:+ "' has no attribute '"
              +:+ serve_name (key e) +:+ "'")).
Proof.
  intros Hpage Hcfg Hpre Hen Hmiss. unfold __init_subclass__. rewrite Hpage, Hcfg.
  rewrite route_loop_app.
  destruct (route_loop_ok pre (set_preview_modes c [])) as (c1 & Hrun & _); [exact Hpre|].
  rewrite Hrun. cbn [mbind result_bind route_loop].
  destruct (route_loop_frame _ _ _ Hrun) as (Hname & _).
  pose proof (route_loop_keeps_missing _ _ _ _ Hrun Hmiss) as Hmiss1.
  destruct (enabled_value e Hen) as (pattern & Hv & Ht).
  unfold route_step, class_getattr. rewrite Hv, Ht.
  cbn [set_preview_modes own mro_tail cls_name]. rewrite Hmiss1, Hname. done.
Qed.

End route_compiler_more.

Section route_compiler_more_examples.

Import MultipleViewPageMixin Demo.

Lemma init_subclass_rebinds_witness :
  mro_lookup (serve_name "pdf") (own CustomPdfPage :: mro_tail CustomPdfPage)
    = Some "route(PdfViewPageMixin.serve_pdf, ^pdf/$)"
  ∧ ∃ c', __init_subclass__ CustomPdfPage = Ok c'
          ∧ mro_lookup (serve_name "pdf") (own c' :: mro_tail c')
            = Some (rebind "route(PdfViewPageMixin.serve_pdf, ^pdf/$)"
                      (binders "pdf" (ROUTE_CONFIG CustomPdfPage))).
Proof.
  split; [reflexivity|]. eexists. split; [reflexivity|].
  apply (init_subclass_rebinds CustomPdfPage _ "pdf" "route(PdfViewPageMixin.serve_pdf, ^pdf/$)");
    reflexivity.
Defined.

(** Two entries with one key: the second wraps what the first bound. *)
Example init_subclass_duplicate_key :
  ∃ c', __init_subclass__
          (PyClass _ "TwoRoutes" true {["serve_pdf" := "serve_pdf"]} []
             [RouteEntry "pdf" (Some "^$") []; RouteEntry "pdf" (Some "^pdf/$") ["document"]] [])
        = Ok c'
        ∧ own c' !! "serve_pdf" = Some "route(route(serve_pdf, ^$), ^pdf/$)"
        ∧ DEFAULT_PREVIEW_MODES c' = [("pdf", "pdf preview"); ("pdf", "pdf preview")].
Proof. eexists. repeat split. Qed.

Lemma init_subclass_first_missing_witness :
  __init_subclass__
    (PyClass _ "Report" true {["serve_html" := "serve_html"]} []
       [RouteEntry "html" (Some "^$") []; RouteEntry "csv" None [];
        RouteEntry "pdf" (Some "^pdf/$") []; RouteEntry "tex" (Some "^tex/$") []] [])
  = Raise (AttributeError "type object 'Report' has no attribute 'serve_pdf'").
Proof.
  apply (init_subclass_first_missing
           (PyClass _ "Report" true {["serve_html" := "serve_html"]} []
              [RouteEntry "html" (Some "^$") []; RouteEntry "csv" None [];
               RouteEntry "pdf" (Some "^pdf/$") []; RouteEntry "tex" (Some "^tex/$") []] [])
           [RouteEntry "html" (Some "^$") []; RouteEntry "csv" None []]
           [RouteEntry "tex" (Some "^tex/$") []]
           (RouteEntry "pdf" (Some "^pdf/$") [])); try reflexivity.
  intros e' Hin Hen.
  repeat (apply elem_of_cons in Hin as [->|Hin]); [| |by apply elem_of_nil in Hin].
  - by eexists.
  - discriminate Hen.
Defined.

Lemma compiled_modes_have_methods_witness :
  ∃ serve, preview_serve_method (instance CompiledPdfPage ∅ (Some "/doc/")) "html" = Ok serve.
Proof.
  apply (compiled_modes_have_methods PdfPage CompiledPdfPage
           (instance CompiledPdfPage ∅ (Some "/doc/")) "html"); try reflexivity.
  apply (bool_decide_unpack _). vm_compute. exact I.
Defined.

End route_compiler_more_examples.

(** ** The preview dispatcher without a method *)

Section preview_dispatcher_more.

Import MultipleViewPageMixin.

Context `{Host}.

(** X4.  For an enabled preview mode for which the page has neither
    [serve_preview_<mode>] nor [serve_<mode>], the dispatcher raises the
    [AttributeError] of the second lookup, the one for [serve_<mode>]; the
    request has been marked as a preview by then, and neither a serve method
    nor the inherited [serve_preview] is called. *)
Theorem serve_preview_without_method (self : page) (mode_name : string)
    (request : gmap string pyval) :
  mode_name ∈ (preview_modes self).*1 →
  mro_lookup ("serve_preview_" +:+ mode_name)
    (inst_callables self :: own (page_class self) :: mro_tail (page_class self)) = None →
  mro_lookup ("serve_" +:+ mode_name)
    (inst_callables self :: own (page_class self) :: mro_tail (page_class self)) = None →
  serve_preview self mode_name request =
    (Raise (AttributeError
              ("'" +:+ cls_name (page_class self) +:+ "' object has no attribute '"
               +:+ "serve_" +:+ mode_name +:+ "'")),
     <["is_preview" := PBool true]> request).
Proof.
  intros Hmode Hpreview Hserve.
  unfold serve_preview, mbind, action_bind, request_setattr, lift.
  rewrite bool_decide_eq_true_2 by exact Hmode.
  unfold preview_serve_method, getattr_callable. by rewrite Hpreview, Hserve.
Qed.

End preview_dispatcher_more.

Section preview_dispatcher_more_examples.

Import MultipleViewPageMixin Demo.

Lemma serve_preview_without_method_witness :
  serve_preview
    (instance (PyClass _ "Bare" false ∅ [] [] [("pdf", "pdf preview")]) ∅ None) "pdf" ∅
  = (Raise (AttributeError "'Bare' object has no attribute 'serve_pdf'"),
     {["is_preview" := PBool true]}).
Proof.
  apply (serve_preview_without_method
           (instance (PyClass _ "Bare" false ∅ [] [] [("pdf", "pdf preview")]) ∅ None)
           "pdf" ∅); [|reflexivity..].
  apply (bool_decide_unpack _). vm_compute. exact I.
Defined.

End preview_dispatcher_more_examples.

(** ** The url attributes: when the assignment fails or has nothing to do *)

Section url_attributes_more.

Import MultipleViewPageMixin.

Context `{Host}.

Implicit Types (self : page) (e : route_entry) (cfg : list route_entry).

Lemma url_loop_first_raises cfg : ∀ self e err,
  first_to_assign self cfg = Some e →
  url_step self e = Raise err →
  url_loop cfg self = Raise err.
Proof.
  induction cfg as [|e0 cfg IH]; intros self e err Hfirst Hstep; [done|].
  unfold first_to_assign in Hfirst. cbn [find] in Hfirst. cbn [url_loop].
  destruct (enabled e0 && negb (hasattr self (url_name (key e0)))) eqn:Hcond.
  - injection Hfirst as ->. by rewrite Hstep.
  - unfold url_step at 1. rewrite Hcond. cbn [mbind result_bind mret result_ret].
    by apply (IH self e).
Qed.

Lemma first_to_assign_Some self cfg e :
  first_to_assign self cfg = Some e →
  enabled e = true ∧ hasattr self (url_name (key e)) = false.
Proof.
  intros [_ Hcond]%find_some. apply andb_true_iff in Hcond as [Hen Hhas].
  by apply negb_true_iff in Hhas.
Qed.

(** X6.  On a page whose url is [None], when there is an attribute to set
    and the sub-path of the first entry that sets one can be reversed,
    [__init__] raises the [TypeError] of adding a string to [None]. *)
Theorem init_url_none_raises (self : page) (e : route_entry) (sub : string) :
  url self = None →
  first_to_assign self (ROUTE_CONFIG (page_class self)) = Some e →
  reverse_subpage (page_class self) (route_name e) = Ok sub →
  __init__ self = Raise (TypeError "unsupported operand type(s) for +: 'NoneType' and 'str'").
Proof.
  intros Hu Hfirst Hsub. apply (url_loop_first_raises _ self e); [exact Hfirst|].
  destruct (first_to_assign_Some _ _ _ Hfirst) as [Hen Hhas].
  unfold url_step. by rewrite Hen, Hhas, Hu, Hsub.
Qed.

(** X7.  When the sub-path of the first entry that has an attribute to set
    cannot be reversed, [__init__] raises the exception of
    [reverse_subpage], whatever the url of the page is. *)
Theorem init_reverse_error (self : page) (e : route_entry) (err : exn) :
  first_to_assign self (ROUTE_CONFIG (page_class self)) = Some e →
  reverse_subpage (page_class self) (route_name e) = Raise err →
  __init__ self = Raise err.
Proof.
  intros Hfirst Hsub. apply (url_loop_first_raises _ self e); [exact Hfirst|].
  destruct (first_to_assign_Some _ _ _ Hfirst) as [Hen Hhas].
  unfold url_step. by rewrite Hen, Hhas, Hsub.
Qed.

(** X8.  When no entry has an attribute to set (every entry with a non-empty
    pattern already has its [url_<key>] on the instance), [__init__] returns
    the instance as it is, without a url and without reversing anything. *)
Theorem init_nothing_to_assign (self : page) :
  first_to_assign self (ROUTE_CONFIG (page_class self)) = None →
  __init__ self = Ok self.
Proof.
  intros Hnone. apply url_loop_noop. intros e Hin Hen.
  apply list_elem_of_In in Hin.
  pose proof (find_none _ _ Hnone e Hin) as Hcond. cbn in Hcond.
  rewrite Hen in Hcond. by apply negb_false_iff in Hcond.
Qed.

(** X9.  On an instance of a compiled page class, after an initialization
    that returns, every preview mode of the page has its [url_<key>]
    attribute. *)
Theorem compiled_modes_have_urls (c c' : pyclass) (self self' : page) (k : string) :
  is_page c = true →
  __init_subclass__ c = Ok c' →
  page_class self = c' →
  __init__ self = Ok self' →
  k ∈ (preview_modes self').*1 →
  hasattr self' (url_name k) = true.
Proof.
  intros Hpage Hc <- Hinit Hk. unfold __init_subclass__ in Hc. rewrite Hpage in Hc.
  destruct (route_loop_frame _ _ _ Hc) as (_ & _ & _ & Hcfg & Hmodes).
  cbn in Hcfg, Hmodes. unfold __init__ in Hinit. rewrite Hcfg in Hinit.
  destruct (url_loop_ok _ _ _ Hinit) as (Hclass & _ & Hset).
  unfold preview_modes in Hk. rewrite Hclass, Hmodes, <- list_fmap_compose in Hk.
  apply list_elem_of_fmap in Hk as (e & -> & Hin).
  apply list_elem_of_In, filter_In in Hin as [Hin Hen]. apply list_elem_of_In in Hin.
  by apply Hset.
Qed.

(** X10.  The slash is added at most once: adjusting an adjusted url
    changes nothing, and the adjusted url is the url itself or the url
    followed by one slash. *)
Theorem ensure_slash_idempotent (u : string) :
  ensure_slash (ensure_slash u) = ensure_slash u
  ∧ (ensure_slash u = u ∨ ensure_slash u = u +:+ "/").
Proof.
  unfold ensure_slash. destruct u as [|a u]; [by split; [|left]|]. cbn [truthy_str andb].
  destruct (endswith (String a u) "/") eqn:E; cbn [negb].
  - rewrite E. by split; [|left].
  - change (String a u +:+ "/") with (String a (u +:+ "/")). cbn [truthy_str andb].
    change (String a (u +:+ "/")) with (String a u +:+ "/").
    rewrite endswith_app. by split; [|right].
Qed.

End url_attributes_more.

Section url_attributes_more_examples.

Import MultipleViewPageMixin Demo.

Lemma init_url_none_raises_witness :
  __init__ (instance CompiledPdfPage {["url_html" := PStr "/custom/"]} None)
  = Raise (TypeError "unsupported operand type(s) for +: 'NoneType' and 'str'").
Proof.
  apply (init_url_none_raises
           (instance CompiledPdfPage {["url_html" := PStr "/custom/"]} None)
           (RouteEntry "pdf" (Some "^pdf/$") []) "pdf/"); reflexivity.
Defined.

Lemma init_reverse_error_witness :
  @__init__ _ host_without_reverse (instance CompiledPdfPage ∅ None)
  = Raise (Foreign "NoReverseMatch" "html").
Proof.
  apply (@init_reverse_error _ host_without_reverse (instance CompiledPdfPage ∅ None)
           (RouteEntry "html" (Some "^$") [])); reflexivity.
Defined.

Lemma init_nothing_to_assign_witness :
  @__init__ _ host_without_reverse
    (instance CompiledPdfPage {["url_html" := PStr "/a/"; "url_pdf" := PStr "/a/pdf/"]} None)
  = Ok (instance CompiledPdfPage {["url_html" := PStr "/a/"; "url_pdf" := PStr "/a/pdf/"]} None).
Proof.
  apply (@init_nothing_to_assign _ host_without_reverse
           (instance CompiledPdfPage {["url_html" := PStr "/a/"; "url_pdf" := PStr "/a/pdf/"]}
              None)).
  reflexivity.
Defined.

Lemma compiled_modes_have_urls_witness :
  match __init__ (instance CompiledPdfPage ∅ (Some "/doc")) with
  | Ok self' => hasattr self' (url_name "pdf") = true
  | Raise _ => False
  end.
Proof.
  destruct (__init__ (instance CompiledPdfPage ∅ (Some "/doc"))) as [self'|err] eqn:Hinit;
    [|discriminate Hinit].
  apply (compiled_modes_have_urls PdfPage CompiledPdfPage
           (instance CompiledPdfPage ∅ (Some "/doc")) self' "pdf");
    [reflexivity | reflexivity | reflexivity | exact Hinit |].
  injection Hinit as <-. apply (bool_decide_unpack _). vm_compute. exact I.
Defined.

End url_attributes_more_examples.

(** ** Templates and file names: edge cases *)

Section templates_more.

Import PdfViewPageMixin.

Lemma replace_absent (s old new : string) : occurs old s = false → replace s old new = s.
Proof.
  unfold replace. induction s as [|c s IH]; [done|]. rewrite occurs_unfold.
  intros [Hhead Htail]%orb_false_iff. cbn [replace_from]. rewrite Hhead.
  by rewrite IH.
Qed.

(** X11.  A template name in which [.html] does not occur comes back
    unchanged, whatever the extension is. *)
Theorem get_template_without_html (super_get_template : gmap string pyval → result pyval)
    (request : gmap string pyval) (extension : option string) (t : string)
    (view_provider : option PdfModelMixin.view) :
  super_get_template request = Ok (PStr t) →
  occurs ".html" t = false →
  get_template super_get_template request extension view_provider = Ok (PStr t).
Proof.
  intros Hsuper Habsent. unfold get_template. rewrite Hsuper.
  cbn [mbind result_bind]. unfold apply_extension.
  destruct extension as [ext|]; [|done]. destruct (truthy_str ext); [|done].
  cbn [py_replace]. by rewrite replace_absent.
Qed.

(** X12.  On a model without the attribute named by [TEMPLATE_ATTRIBUTE],
    [get_template] of the page mixin raises the error of the model mixin for
    that attribute, for every extension and every view provider: an admin
    template does not stand in, not even for an admin view. *)
Theorem get_template_on_model_missing (self : PdfModelMixin.model)
    (request : gmap string pyval) (extension : option string)
    (view_provider : option PdfModelMixin.view) :
  PdfModelMixin.attrs self !! PdfModelMixin.TEMPLATE_ATTRIBUTE self = None →
  get_template_on_model self request extension view_provider
    = Raise (PdfModelMixin.template_not_found self (PdfModelMixin.TEMPLATE_ATTRIBUTE self)).
Proof.
  intros Hmiss. unfold get_template_on_model, get_template, PdfModelMixin.get_template.
  cbn. by rewrite Hmiss.
Qed.

Lemma get_template_without_html_witness :
  get_template (λ _, Ok (PStr "invoice.tex")) ∅ (Some "pdf") None = Ok (PStr "invoice.tex").
Proof.
  apply (get_template_without_html (λ _, Ok (PStr "invoice.tex")) ∅ (Some "pdf")
           "invoice.tex" None); reflexivity.
Defined.

Lemma get_template_on_model_missing_witness :
  get_template_on_model
    (PdfModelMixin.plain_model {["admin_template_name" := PStr "admin.html"]} "invoice")
    ∅ (Some "tex") (Some (PdfModelMixin.View true))
  = Raise (AttributeError
             ("Template attribute not found for model invoice. "
              +:+ "Try to add template_name='path/to/your/template_file' to invoice")).
Proof.
  apply (get_template_on_model_missing
           (PdfModelMixin.plain_model {["admin_template_name" := PStr "admin.html"]} "invoice")
           ∅ (Some "tex") (Some (PdfModelMixin.View true))).
  reflexivity.
Defined.

End templates_more.

Section file_names_more.

Import MultipleViewPageMixin.

Context `{Framework}.

(** X13.  Both [get_pdf_filename] methods return a name that ends in
    [.pdf], whatever the title, its slug or the model name are (an empty
    title or slug gives the bare [.pdf]). *)
Theorem get_pdf_filename_extension (self : page) (m : PdfModelMixin.model)
    (request : gmap string pyval) :
  endswith (PdfViewPageMixin.get_pdf_filename self request) ".pdf" = true
  ∧ endswith (PdfModelMixin.get_pdf_filename m request) ".pdf" = true.
Proof. split; apply endswith_app. Qed.

End file_names_more.

(** ** Serving the pdf: which error comes first, and the providers *)

Section pdf_serve_more.

Import MultipleViewPageMixin PdfViewPageMixin.

Context `{Host}.

(** X14.  [serve_pdf] fails before the view is called, with the request
    untouched, when the page has no provider or when a keyword argument
    names [object] or [mode] again: without provider it raises the
    [AttributeError] for [None.as_view], also when a keyword is given twice;
    with a provider and a keyword given twice it raises a [TypeError]. *)
Theorem serve_pdf_fails_before_view (self : page) (kwargs request : gmap string pyval) :
  PDF_VIEW_PROVIDER self = None ∨ "object" ∈ dom kwargs ∨ "mode" ∈ dom kwargs →
  ∃ err, serve_pdf self kwargs request = (Raise err, request)
         ∧ (PDF_VIEW_PROVIDER self = None →
            err = AttributeError "'NoneType' object has no attribute 'as_view'")
         ∧ (is_Some (PDF_VIEW_PROVIDER self) → ∃ msg, err = TypeError msg).
Proof.
  intros Hcase. unfold serve_pdf, get_pdf_view, call_view, mbind, action_bind, lift.
  destruct (PDF_VIEW_PROVIDER self) as [p|] eqn:Hp.
  - destruct Hcase as [Hnone|Hdup]; [done|].
    rewrite bool_decide_eq_true_2 by exact Hdup.
    eexists. split; [reflexivity|]. split; [done|]. intros _. by eexists.
  - eexists. split; [reflexivity|]. split; [done|]. by intros [p Hsome].
Qed.

End pdf_serve_more.

Section providers_more.

Import PdfViewPageMixin.

(** X15.  The two default providers come from one backend: either both are
    [None] and the module prints its warning, or both are the classes of the
    first backend that can be imported, weasyprint before django-tex, and
    nothing is printed. *)
Theorem default_providers_same_backend {P : Type} (weasy tex : option (P * P)) :
  (DEFAULT_PDF_VIEW_PROVIDER weasy tex = None
   ∧ DEFAULT_PDF_ADMIN_VIEW_PROVIDER weasy tex = None
   ∧ weasy = None ∧ tex = None
   ∧ import_output weasy tex ≠ [])
  ∨ (∃ v a, (weasy = Some (v, a) ∨ (weasy = None ∧ tex = Some (v, a)))
            ∧ DEFAULT_PDF_VIEW_PROVIDER weasy tex = Some v
            ∧ DEFAULT_PDF_ADMIN_VIEW_PROVIDER weasy tex = Some a
            ∧ import_output weasy tex = []).
Proof.
  destruct weasy as [[v a]|]; [right; exists v, a; by repeat split; [left|..]|].
  destruct tex as [[v a]|]; [right; exists v, a; by repeat split; [right|..]|].
  left. by repeat split.
Qed.

(** X16.  [make_preview_request] hands the inherited method a dictionary
    that holds the original request under [original_request] and otherwise
    what the caller's dictionary held (nothing, for [None]).  A caller's
    dictionary that is [None] or empty is not written to; a non-empty one is
    the dictionary that is written to and handed on. *)
Theorem make_preview_request_dict {R : Type}
    (super_make_preview_request :
       option (gmap string pyval) → option string → gmap string extra_attr
       → R * gmap string extra_attr)
    (original_request : option (gmap string pyval)) (preview_mode : option string)
    (extra_request_attrs : option (gmap string extra_attr)) :
  make_preview_request super_make_preview_request original_request preview_mode
                       extra_request_attrs
  = ((super_make_preview_request original_request preview_mode
        (<["original_request" := extra_of_request original_request]>
           (default ∅ extra_request_attrs))).1,
     if falsy_dict extra_request_attrs then extra_request_attrs
     else Some (super_make_preview_request original_request preview_mode
                  (<["original_request" := extra_of_request original_request]>
                     (default ∅ extra_request_attrs))).2)
  ∧ (falsy_dict extra_request_attrs = true ↔ default ∅ extra_request_attrs = ∅).
Proof.
  assert (falsy_dict extra_request_attrs = true ↔ default ∅ extra_request_attrs = ∅) as Hfalsy.
  { destruct extra_request_attrs as [d|]; cbn; [|done].
    by rewrite Nat.eqb_eq, map_size_empty_iff. }
  split; [|exact Hfalsy]. unfold make_preview_request.
  destruct (falsy_dict extra_request_attrs) eqn:Hf.
  - rewrite (proj1 Hfalsy eq_refl). by destruct (super_make_preview_request _ _ _).
  - by destruct (super_make_preview_request _ _ _).
Qed.

End providers_more.

Section pdf_serve_more_examples.

Import MultipleViewPageMixin PdfViewPageMixin Demo.

Lemma serve_pdf_fails_before_view_witness :
  ∃ err, serve_pdf (Page _ CompiledPdfPage ∅ ∅ None "My Page" true None)
                   {["mode" := PStr "html"]} ∅ = (Raise err, ∅)
         ∧ (PDF_VIEW_PROVIDER (Page _ CompiledPdfPage ∅ ∅ None "My Page" true None) = None →
            err = AttributeError "'NoneType' object has no attribute 'as_view'")
         ∧ (is_Some (PDF_VIEW_PROVIDER (Page _ CompiledPdfPage ∅ ∅ None "My Page" true None)) →
            ∃ msg, err = TypeError msg).
Proof.
  apply (serve_pdf_fails_before_view (Page _ CompiledPdfPage ∅ ∅ None "My Page" true None)
           {["mode" := PStr "html"]} ∅).
  left. reflexivity.
Defined.

(** A dictionary with an entry is written to; an empty one is not. *)
Example make_preview_request_aliasing :
  make_preview_request (λ o m d, (size d, d)) (Some ∅) (Some "pdf")
                       (Some {["user" := ExtraVal (PStr "editor")]})
  = (2, Some {["user" := ExtraVal (PStr "editor"); "original_request" := ExtraRequest ∅]})
  ∧ make_preview_request (λ o m d, (size d, d)) (Some ∅) (Some "pdf") (Some ∅) = (1, Some ∅)
  ∧ make_preview_request (λ o m d, (size d, d)) (Some ∅) (Some "pdf") None = (1, None).
Proof. repeat split; vm_compute; reflexivity. Qed.

End pdf_serve_more_examples.
